(** * httpxfinish: the MCP route handlers and their command builder

    A shallow embedding of the four route handlers of the repository:

    - [Route]     src/app/mcp/route.ts: manual JSON-RPC fallback guarded by
                  the accept header, then delegation to the core handler;
    - [Part000]   the variant that tries the manual answers on every POST
                  and patches the accept header only when it lacks
                  text/event-stream;
    - [Part002]   the variant that always delegates;
    - [Core]      the tool callback registered with createMcpHandler (it is
                  all the fourth file exports).

    Values that come out of JSON.parse are modelled by [json]; a possibly
    undefined value is an [option json].  Exceptions are a [result];
    console output is an explicit list of [log_event]s; the call of the
    downstream handler is the [Forward] action of a handler, run by
    [respond].  A request body is null or a stream, given by its text.  The
    platform refuses to build a request around a stream ([new_Request]) and
    to clone a request whose stream was read ([clone]); an exception that
    leaves a handler is its [Throws] action. *)

From Stdlib Require Import ZArith.
From stdpp Require Import base strings list gmap.

Open Scope Z_scope.

(** ** Exceptions *)

Inductive js_error : Type :=
| SyntaxError   (* JSON.parse on a text that is not JSON *)
| TypeError.    (* property read on null, call of a non-function, ... *)

Inductive result (A : Type) : Type :=
| Ok (a : A)
| Throw (e : js_error).
Arguments Ok {A} a.
Arguments Throw {A} e.

#[global] Instance result_ret : MRet result := fun _ a => Ok a.
#[global] Instance result_bind : MBind result := fun _ _ f m =>
  match m with
  | Ok a => f a
  | Throw e => Throw e
  end.

(** Evaluates a list of computations from left to right, as the element
    conversions of [Array.prototype.join] are. *)
Fixpoint sequence {A : Type} (l : list (result A)) : result (list A) :=
  match l with
  | [] => Ok []
  | m :: r => a ← m; rest ← sequence r; Ok (a :: rest)
  end.

(** ** Numbers

    A JavaScript number is a double; the handlers only print numbers,
    test them for zero and write the literal -32602.  These three
    operations are the interface. *)

Class JsNumber (number : Type) : Type := {
  number_to_string : number → string;   (* Number::toString *)
  number_is_zero : number → bool;       (* +0 or -0; JSON has no NaN *)
  number_of_Z : Z → number;             (* an integer literal *)
}.

(** ** JSON values *)

#[warning="-register-all"]
Inductive json (number : Type) : Type :=
| JNull
| JBool (b : bool)
| JNum (n : number)
| JStr (s : string)
| JArr (items : list (json number))
| JObj (members : list (string * json number)).
Arguments JNull {number}.
Arguments JBool {number} b.
Arguments JNum {number} n.
Arguments JStr {number} s.
Arguments JArr {number} items.
Arguments JObj {number} members.

(** [Array.prototype.join] on strings. *)
Fixpoint join (sep : string) (l : list string) : string :=
  match l with
  | [] => ""
  | [x] => x
  | x :: r => x +:+ sep +:+ join sep r
  end.

(** [String.prototype.includes]. *)
Fixpoint includes (s sub : string) : bool :=
  String.prefix sub s ||
  match s with
  | EmptyString => false
  | String _ r => includes r sub
  end.

Definition newline : string := String (Ascii.ascii_of_nat 10) EmptyString.

Section Values.
Context {number : Type} `{JsNumber number}.

Local Abbreviation json := (json number).

(** The own property [k] of an object made by JSON.parse: of two members
    with the same key the later one wins. *)
Fixpoint own_property (k : string) (ms : list (string * json)) : option json :=
  match ms with
  | [] => None
  | (k', v) :: r =>
      match own_property k r with
      | Some w => Some w
      | None => if String.eqb k' k then Some v else None
      end
  end.

(** [v.k] for a key [k] that no built-in prototype defines (id, method,
    params, name, arguments, target, ports, probes): reading from
    undefined or null throws, from an object it finds the own property,
    from anything else it gives undefined. *)
Definition get (v : option json) (k : string) : result (option json) :=
  match v with
  | None | Some JNull => Throw TypeError
  | Some (JObj ms) => Ok (own_property k ms)
  | Some _ => Ok None
  end.

(** ToBoolean. *)
Definition truthy (v : option json) : bool :=
  match v with
  | None | Some JNull => false
  | Some (JBool b) => b
  | Some (JNum n) => negb (number_is_zero n)
  | Some (JStr s) => negb (String.eqb s "")
  | Some (JArr _) | Some (JObj _) => true
  end.

(** [a || b]. *)
Definition or_else (a : option json) (b : json) : json :=
  match a with
  | Some v => if truthy a then v else b
  | None => b
  end.

(** [v.length] of a value that is neither null nor undefined: a count for
    arrays and strings, the own property for objects, undefined for
    numbers and booleans. *)
Inductive js_length : Type :=
| LenCount (n : nat)
| LenValue (v : option json).

Definition length_of (v : json) : js_length :=
  match v with
  | JArr items => LenCount (length items)
  | JStr s => LenCount (String.length s)
  | JObj ms => LenValue (own_property "length" ms)
  | _ => LenValue None
  end.

(** [len === 0]. *)
Definition length_is_zero (len : js_length) : bool :=
  match len with
  | LenCount n => Nat.eqb n 0
  | LenValue (Some (JNum n)) => number_is_zero n
  | LenValue _ => false
  end.

(** ToBoolean of a length. *)
Definition length_truthy (len : js_length) : bool :=
  match len with
  | LenCount n => negb (Nat.eqb n 0)
  | LenValue v => truthy v
  end.

(** [v?.length] as a condition. *)
Definition has_length (v : option json) : bool :=
  match v with
  | None | Some JNull => false
  | Some w => length_truthy (length_of w)
  end.

(** ToString.  An array prints as its elements joined by commas, null
    and undefined elements as the empty string; an object prints as
    [[object Object]] unless an own member hides [toString], in which
    case the conversion finds nothing callable and throws. *)
Fixpoint to_string (v : json) : result string :=
  match v with
  | JNull => Ok "null"
  | JBool b => Ok (if b then "true" else "false")
  | JNum n => Ok (number_to_string n)
  | JStr s => Ok s
  | JArr items =>
      strs ← sequence
        (map (fun x => match x with JNull => Ok "" | _ => to_string x end) items);
      Ok (join "," strs)
  | JObj ms =>
      match own_property "toString" ms with
      | Some _ => Throw TypeError
      | None => Ok "[object Object]"
      end
  end.

Definition join_element (x : json) : result string :=
  match x with
  | JNull => Ok ""
  | _ => to_string x
  end.

(** [v.join(sep)]: only arrays have the method; JSON holds no function,
    so on every other value the call throws. *)
Definition array_join (v : json) (sep : string) : result string :=
  match v with
  | JArr items => strs ← sequence (map join_element items); Ok (join sep strs)
  | _ => Throw TypeError
  end.

(** [v.forEach(f)] where [f] pushes onto the array [cmd]. *)
Definition array_forEach (v : json) (f : list string → json → result (list string))
    (cmd : list string) : result (list string) :=
  match v with
  | JArr items => foldl (fun acc x => c ← acc; f c x) (Ok cmd) items
  | _ => Throw TypeError
  end.

End Values.

(** ** Requests, responses and the platform's JSON codec *)

Record Request : Type := {
  url : string;
  method : string;
  headers : gmap string string;   (* a Headers object, names in lower case *)
  body : option string;           (* null for a request without a body *)
}.

Record Response : Type := {
  status : Z;
  response_headers : list (string * string);
  response_body : string;
}.

Class JsonCodec (number : Type) : Type := {
  JSON_parse : string → option (json number);   (* None: SyntaxError *)
  JSON_stringify : json number → string;
}.

Inductive log_event : Type :=
| ConsoleLog (msg arg : string)
| ConsoleError (msg : string) (err : js_error).

(** What a wrapper does with a request: answer it, hand a request to the
    handler made by createMcpHandler, or end in an exception that nothing
    catches (the promise of the handler is rejected). *)
Inductive action : Type :=
| Respond (r : Response)
| Forward (r : Request)
| Throws (err : js_error).

Definition respond (coreHandler : Request → result Response) (a : action)
    : result Response :=
  match a with
  | Respond r => Ok r
  | Forward r => coreHandler r
  | Throws err => Throw err
  end.

Definition both_modes : string := "application/json, text/event-stream".

Definition json_headers : list (string * string) :=
  [("content-type", "application/json")].

(** ** The tool callback of the core handler

    zod has validated the arguments: [target] is an array of strings,
    [ports] an optional array of numbers, [probes] an optional array of
    strings. *)

Module Core.
Section Core.
Context {number : Type} `{JsNumber number}.

(** [ports.join(",")] on an array of numbers. *)
Definition join_numbers (ports : list number) : string :=
  join "," (map number_to_string ports).

(** [for (const probe of probes) args.push(`-${probe}`)]. *)
Definition push_probes (args : list string) (probes : list string) : list string :=
  foldl (fun args probe => args ++ ["-" +:+ probe]) args probes.

(** route.ts and part_002, lines 26-39: the conditions are [ports?.length]
    and [probes?.length]. *)
Definition command (target : list string) (ports : option (list number))
    (probes : option (list string)) : string :=
  let args := ["-u"; join "," target; "-silent"] in
  let args :=
    match ports with
    | Some ps => if negb (Nat.eqb (length ps) 0)
                 then args ++ ["-p"; join_numbers ps] else args
    | None => args
    end in
  let args :=
    match probes with
    | Some qs => if negb (Nat.eqb (length qs) 0) then push_probes args qs else args
    | None => args
    end in
  "httpx " +:+ join " " args.

(** part_000 and part_001, lines 27-40: the conditions are
    [ports && ports.length > 0] and [probes && probes.length > 0]. *)
Definition command' (target : list string) (ports : option (list number))
    (probes : option (list string)) : string :=
  let args := ["-u"; join "," target; "-silent"] in
  let args :=
    match ports with
    | Some ps => if Nat.ltb 0 (length ps)
                 then args ++ ["-p"; join_numbers ps] else args
    | None => args
    end in
  let args :=
    match probes with
    | Some qs => if Nat.ltb 0 (length qs) then push_probes args qs else args
    | None => args
    end in
  "httpx " +:+ join " " args.

(** The text block the tool of route.ts returns. *)
Definition tool_text (target : list string) (ports : option (list number))
    (probes : option (list string)) : string :=
  "Run this command locally (httpx must be installed):" +:+ newline +:+ newline +:+
  command target ports probes +:+ newline +:+ newline +:+
  "Execution of CLI binaries is not performed on this hosted MCP server; it only builds the command for you.".

End Core.
End Core.

(** ** The manual JSON-RPC answers

    The body of the [try] block, the same text in route.ts (lines 95-169)
    and in part_000 (lines 94-169). *)

Section Manual.
Context {number : Type} `{JsNumber number} `{JsonCodec number}.

Local Abbreviation json := (json number).

(** An object literal; JSON.stringify leaves out the members whose value is
    undefined. *)
Definition object (fields : list (string * option json)) : json :=
  JObj (omap (fun kv => pair kv.1 <$> kv.2) fields).

Definition manualInitialize : list (string * option json) :=
  [("jsonrpc", Some (JStr "2.0"));
   ("result", Some (JObj
      [("protocolVersion", JStr "2025-03-26");
       ("capabilities", JObj [("tools", JObj [("listChanged", JBool true)])]);
       ("serverInfo", JObj [("name", JStr "httpxfinish"); ("version", JStr "1.0.0")])]))].

Definition array_of (type : string) : json :=
  JObj [("type", JStr "array"); ("items", JObj [("type", JStr type)])].

Definition inputSchema : json :=
  JObj [("type", JStr "object");
        ("properties", JObj [("target", array_of "string");
                             ("ports", array_of "number");
                             ("probes", array_of "string")]);
        ("required", JArr [JStr "target"])].

Definition tools : list json :=
  [JObj [("name", JStr "httpx");
         ("description",
          JStr "Scans target domains with httpx and lists active HTTP/HTTPS services.");
         ("inputSchema", inputSchema)]].

Definition initialize_response (id : option json) : Response :=
  {| status := 200;
     response_headers := json_headers;
     response_body := JSON_stringify (object (manualInitialize ++ [("id", id)])) |}.

Definition tools_list_response (id : option json) : Response :=
  {| status := 200;
     response_headers := json_headers;
     response_body := JSON_stringify (object
       [("jsonrpc", Some (JStr "2.0")); ("id", id);
        ("result", Some (JObj [("tools", JArr tools)]))]) |}.

Definition target_required_response (id : option json) : Response :=
  {| status := 400;
     response_headers := json_headers;
     response_body := JSON_stringify (object
       [("jsonrpc", Some (JStr "2.0")); ("id", id);
        ("error", Some (JObj [("code", JNum (number_of_Z (-32602)));
                              ("message", JStr "target is required")]))]) |}.

Definition command_response (id : option json) (command : string) : Response :=
  {| status := 200;
     response_headers := json_headers;
     response_body := JSON_stringify (object
       [("jsonrpc", Some (JStr "2.0")); ("id", id);
        ("result", Some (JObj [("content", JArr
           [JObj [("type", JStr "text");
                  ("text", JStr ("Run this command locally (httpx must be installed):"
                                 +:+ newline +:+ command))]])]))]) |}.

(** [method === s]. *)
Definition is_string (v : option json) (s : string) : bool :=
  match v with
  | Some (JStr t) => String.eqb t s
  | _ => false
  end.

(** Line 150: [if (ports?.length) cmd.push("-p", ports.join(","))]. *)
Definition push_ports (cmd : list string) (ports : option json) : result (list string) :=
  match ports with
  | Some pv =>
      if has_length ports
      then p ← array_join pv ","; Ok (cmd ++ ["-p"; p])
      else Ok cmd
  | None => Ok cmd
  end.

(** Line 151: [if (probes?.length) probes.forEach((p) => cmd.push(`-${p}`))]. *)
Definition push_probes (cmd : list string) (probes : option json) : result (list string) :=
  match probes with
  | Some qv =>
      if has_length probes
      then array_forEach qv (fun cmd p => s ← to_string p; Ok (cmd ++ ["-" +:+ s])) cmd
      else Ok cmd
  | None => Ok cmd
  end.

(** Lines 149-152: the array [cmd] is local and grows by [push]. *)
Definition build_command (targets : json) (ports probes : option json) : result string :=
  t ← array_join targets ",";
  cmd ← push_ports ["-u"; t; "-silent"] ports;
  cmd ← push_probes cmd probes;
  Ok ("httpx " +:+ join " " cmd).

(** Lines 133-169. *)
Definition tools_call (id params : option json) : result (option Response) :=
  let params := Some (or_else params (JObj [])) in
  name ← get params "name";
  arguments ← get params "arguments";
  let args := Some (default (JObj []) arguments) in
  if is_string name "httpx" then
    target ← get args "target";
    let targets := or_else target (JArr []) in
    ports ← get args "ports";
    probes ← get args "probes";
    if negb (truthy (Some targets)) || length_is_zero (length_of targets) then
      Ok (Some (target_required_response id))
    else
      command ← build_command targets ports probes;
      Ok (Some (command_response id command))
  else Ok None.

(** [await req.json()], or [JSON.parse(await req.text())]. *)
Definition req_json (req : Request) : result json :=
  match JSON_parse (default "" (body req)) with
  | Some v => Ok v
  | None => Throw SyntaxError
  end.

(** The whole [try] block: [Ok (Some r)] is a [return r] inside it,
    [Ok None] leaves the block at its end. *)
Definition manual_answer (req : Request) : result (option Response) :=
  data ← req_json req;
  id ← get (Some data) "id";
  method ← get (Some data) "method";
  params ← get (Some data) "params";
  if is_string method "initialize" then Ok (Some (initialize_response id))
  else if is_string method "tools/list" then Ok (Some (tools_list_response id))
  else if is_string method "tools/call" then tools_call id params
  else Ok None.

(** [req.headers.get("accept") || ""]. *)
Definition accept_of (req : Request) : string :=
  default "" (headers req !! "accept").

(** The request [req] with the headers [hs]: what
    [new Request(req.url, { method, headers, body })] gives when it gives
    anything. *)
Definition with_headers (req : Request) (hs : gmap string string) : Request :=
  {| url := url req; method := method req; headers := hs; body := body req |}.

End Manual.

(** ** The platform and request bodies

    [new Request(url, { method, headers, body })] with the body of another
    request.  A null body is taken.  A body that is a stream is refused with
    a TypeError: the options name no [duplex], and a stream that was read
    before ([req.json()], [req.text()]) is refused as disturbed in any
    case. *)
Definition new_Request (url method : string) (hs : gmap string string)
    (body : option string) : result Request :=
  match body with
  | None => Ok {| url := url; method := method; headers := hs; body := None |}
  | Some _ => Throw TypeError
  end.

(** [req.clone()]: a TypeError once the body stream of [req] was read;
    reading a null body uses nothing up. *)
Definition clone (req : Request) (bodyRead : bool) : result Request :=
  match body req with
  | Some _ => if bodyRead then Throw TypeError else Ok req
  | None => Ok req
  end.

(** The end of a handler, [return coreHandler(request)], when building
    [request] may have thrown. *)
Definition delegation (request : result Request) : action :=
  match request with
  | Ok r => Forward r
  | Throw err => Throws err
  end.

(** ** src/app/mcp/route.ts *)

Module Route.
Section Route.
Context {number : Type} `{JsNumber number} `{JsonCodec number}.

(** Line 92: the condition of the fallback path. *)
Definition fallback (accept : string) : bool :=
  negb (includes accept "application/json") || negb (includes accept "text/event-stream").

(** The request of lines 177-185, when the constructor gives one. *)
Definition modifiedRequest (req : Request) : Request :=
  with_headers req (<["accept" := both_modes]> (headers req)).

(** Lines 177-187, outside the [try] block. *)
Definition delegate (req : Request) : action :=
  delegation (new_Request (url req) (method req)
                (<["accept" := both_modes]> (headers req)) (body req)).

Definition handler_step (req : Request) : list log_event * action :=
  let accept := accept_of req in
  if fallback accept then
    if String.eqb (method req) "POST" then
      match manual_answer req with
      | Ok (Some r) => ([], Respond r)
      | Ok None => ([], delegate req)
      | Throw err => ([ConsoleError "Manual fallback error" err], delegate req)
      end
    else ([], delegate req)
  else ([], delegate req).

Definition handler (coreHandler : Request → result Response) (req : Request)
    : result Response :=
  respond coreHandler (handler_step req).2.

End Route.
End Route.

(** ** src/unnamed/part_000 *)

Module Part000.
Section Part000.
Context {number : Type} `{JsNumber number} `{JsonCodec number}.

(** Lines 175-178: the headers of the request to forward. *)
Definition patched (req : Request) : gmap string string :=
  let accept := accept_of req in
  if negb (includes accept "text/event-stream")
  then <["accept" := both_modes]> (headers req)
  else headers req.

(** The request of lines 180-184, when [clone] and the constructor give
    one. *)
Definition modified (req : Request) : Request :=
  with_headers req (patched req).

(** Lines 175-185, outside the [try] block; [bodyRead] tells whether
    [req.text()] has run. *)
Definition delegate (bodyRead : bool) (req : Request) : action :=
  delegation (cloned ← clone req bodyRead;
              new_Request (url req) (method req) (patched req) (body cloned)).

Definition handler_step (req : Request) : list log_event * action :=
  let accept := accept_of req in
  let log := [ConsoleLog "Incoming Accept header:" accept] in
  if String.eqb (method req) "POST" then
    match manual_answer req with
    | Ok (Some r) => (log, Respond r)
    | Ok None => (log, delegate true req)
    | Throw err =>
        (log ++ [ConsoleError "manual handler parse error" err], delegate true req)
    end
  else (log, delegate false req).

Definition handler (baseHandler : Request → result Response) (req : Request)
    : result Response :=
  respond baseHandler (handler_step req).2.

End Part000.
End Part000.

(** ** src/unnamed/part_002 *)

Module Part002.

(** The request of lines 75-82, when the constructor gives one. *)
Definition modifiedRequest (req : Request) : Request :=
  with_headers req (<["accept" := both_modes]> (headers req)).

(** Lines 74-85. *)
Definition handler_step (req : Request) : list log_event * action :=
  ([], delegation (new_Request (url req) (method req)
                     (<["accept" := both_modes]> (headers req)) (body req))).

Definition handler (coreHandler : Request → result Response) (req : Request)
    : result Response :=
  respond coreHandler (handler_step req).2.

End Part002.

(** ** The command of the specification

    Written from the words of the specification: the fixed head, the targets
    joined by commas, [-silent], then [-p] and the ports joined by commas
    when there are any, then one [-probe] flag per probe. *)

Definition spec_command (target ports probes : list string) : string :=
  "httpx -u " +:+ join "," target +:+ " -silent"
  +:+ (match ports with [] => "" | _ => " -p " +:+ join "," ports end)
  +:+ foldr (fun probe rest => " -" +:+ probe +:+ rest) "" probes.

(** ** Vocabulary of the statements *)

Section Vocabulary.
Context {number : Type} `{JsNumber number} `{JsonCodec number}.

Local Abbreviation json := (json number).

(** Arguments as the declared schema wants them. *)
Definition json_strings (l : list string) : json := JArr (map JStr l).
Definition json_numbers (l : list number) : json := JArr (map JNum l).

(** The member found by following [keys] down from [v]. *)
Fixpoint path (keys : list string) (v : json) : option json :=
  match keys with
  | [] => Some v
  | k :: rest =>
      match v with
      | JObj ms => own_property k ms ≫= path rest
      | _ => None
      end
  end.

(** The body of [req] is the JSON text of [data]. *)
Definition parsed (req : Request) (data : json) : Prop :=
  JSON_parse (default "" (body req)) = Some data.

(** [data] is a JSON-RPC request object with members [ms]. *)
Definition rpc_request (data : json) (ms : list (string * json)) (method : string) : Prop :=
  data = JObj ms ∧ own_property "method" ms = Some (JStr method).

(** [data] is a [tools/call] of the tool [httpx]: [ps] are the members of
    its [params], [arguments] those of [params.arguments] when it has
    any. *)
Definition httpx_call (data : json) (ms ps : list (string * json))
    (arguments : option (list (string * json))) : Prop :=
  rpc_request data ms "tools/call"
  ∧ own_property "params" ms = Some (JObj ps)
  ∧ own_property "name" ps = Some (JStr "httpx")
  ∧ own_property "arguments" ps = JObj <$> arguments.

(** The same with [arguments] any value, or undefined. *)
Definition httpx_call_of (data : json) (ms ps : list (string * json))
    (arguments : option json) : Prop :=
  rpc_request data ms "tools/call"
  ∧ own_property "params" ms = Some (JObj ps)
  ∧ own_property "name" ps = Some (JStr "httpx")
  ∧ own_property "arguments" ps = arguments.

(** [r] carries the JSON text of [o]. *)
Definition carries (r : Response) (o : json) : Prop :=
  response_body r = JSON_stringify o.

(** A request that route.ts sends down its fallback path and into the
    [try] block. *)
Definition manual_post (req : Request) : Prop :=
  Route.fallback (accept_of req) = true ∧ method req = "POST".

End Vocabulary.

(** ** A concrete platform, to run the handlers on examples

    Numbers are integers printed in decimal.  [stringify] writes compact
    JSON text; [parse] reads back the request bodies of the examples, on
    which it agrees with JSON.parse, and knows no other text. *)

Module Demo.

Fixpoint digits (fuel : nat) (n : N) (acc : string) : string :=
  match fuel with
  | O => acc
  | S fuel =>
      let d := String (Ascii.ascii_of_N (48 + n mod 10)) acc in
      if N.eqb (n / 10) 0 then d else digits fuel (n / 10)%N d
  end.

Definition decimal (z : Z) : string :=
  match z with
  | Z0 => "0"
  | Zpos p => digits (Pos.to_nat p) (Npos p) ""
  | Zneg p => "-" +:+ digits (Pos.to_nat p) (Npos p) ""
  end.

#[global] Instance number_Z : JsNumber Z := {|
  number_to_string := decimal;
  number_is_zero := Z.eqb 0;
  number_of_Z := id;
|}.

Definition quoted (s : string) : string :=
  let q := String (Ascii.ascii_of_nat 34) EmptyString in q +:+ s +:+ q.

(** Compact JSON text; the strings of the examples need no escapes. *)
Fixpoint stringify (v : json Z) : string :=
  match v with
  | JNull => "null"
  | JBool b => if b then "true" else "false"
  | JNum n => decimal n
  | JStr s => quoted s
  | JArr items => "[" +:+ join "," (map stringify items) +:+ "]"
  | JObj ms =>
      "{" +:+ join "," (map (fun kv => let '(k, x) := kv in
                                       quoted k +:+ ":" +:+ stringify x) ms) +:+ "}"
  end.

Definition rpc_members (id : json Z) (method : string) : list (string * json Z) :=
  [("jsonrpc", JStr "2.0"); ("id", id); ("method", JStr method)].

Definition rpc (id : json Z) (method : string) : json Z :=
  JObj (rpc_members id method).

Definition params_members (arguments : list (string * json Z)) : list (string * json Z) :=
  [("name", JStr "httpx"); ("arguments", JObj arguments)].

Definition call_members (id : json Z) (arguments : list (string * json Z))
    : list (string * json Z) :=
  rpc_members id "tools/call" ++ [("params", JObj (params_members arguments))].

Definition call (id : json Z) (arguments : list (string * json Z)) : json Z :=
  JObj (call_members id arguments).

Definition scan : list (string * json Z) :=
  [("target", JArr [JStr "example.com"; JStr "b.org"]);
   ("ports", JArr [JNum 80; JNum 443]);
   ("probes", JArr [JStr "title"; JStr "status-code"])].

(** Arguments that the declared schema rejects: a port that is a string and
    probes with a space, a shell metacharacter and no character at all. *)
Definition unchecked : list (string * json Z) :=
  [("target", JArr [JStr "example.com"]);
   ("ports", JArr [JStr "80; id"]);
   ("probes", JArr [JStr "title -o /tmp/x"; JStr "$(id)"; JStr ""])].

(** A call whose [arguments] is null. *)
Definition null_call : json Z :=
  JObj (rpc_members (JNum 9) "tools/call" ++
        [("params", JObj [("name", JStr "httpx"); ("arguments", JNull)])]).

Definition known : list (json Z) :=
  [rpc (JNum 7) "initialize"; rpc (JStr "a") "tools/list"; rpc (JNum 1) "ping";
   call (JNum 2) [("target", JArr [])];
   call (JNum 3) [("ports", JArr [JNum 80])];
   call (JNum 4) scan; call (JStr "x") scan; call (JNum 5) unchecked; null_call].

Definition parse (text : string) : option (json Z) :=
  List.find (fun v => String.eqb (stringify v) text) known.

#[global] Instance codec : JsonCodec Z := {|
  JSON_parse := parse;
  JSON_stringify := stringify;
|}.

Definition request (method : string) (accept : option string) (text : option string)
    : Request :=
  {| url := "https://host/mcp"; method := method;
     headers := match accept with
                | Some a => {["accept" := a]}
                | None => ∅
                end;
     body := text |}.

(** A POST whose body is the text of [v]. *)
Definition post (accept : option string) (v : json Z) : Request :=
  request "POST" accept (Some (stringify v)).

(** The requests of the examples. *)
Definition initialize_request : Request :=
  post (Some "text/event-stream") (rpc (JNum 7) "initialize").
Definition list_request : Request :=
  post None (rpc (JStr "a") "tools/list").
Definition ping_request : Request :=
  post (Some "text/event-stream") (rpc (JNum 1) "ping").
Definition empty_target_request : Request :=
  post (Some "application/json") (call (JNum 2) [("target", JArr [])]).
Definition scan_request : Request :=
  post (Some "application/json") (call (JNum 4) scan).
Definition scan_request' : Request :=
  post None (call (JStr "x") scan).
Definition unchecked_request : Request :=
  post (Some "application/json") (call (JNum 5) unchecked).
Definition broken_request : Request :=
  request "POST" (Some "application/json") (Some "{").

End Demo.

(** ** The declared shape of the tool arguments

    The zod shape handed to [server.tool], route.ts lines 10-25 and the
    same lines of the three other files: [target] an array of strings with
    at least one element, [ports] an optional array of numbers, [probes] an
    optional array of strings.  [accepts] gives the values the callback is
    called with.  Where zod versions differ on a number (an infinite one),
    the shape here takes it. *)

Module Schema.
Section Schema.
Context {number : Type}.

Local Abbreviation json := (json number).

Record ToolArguments : Type := {
  target : list string;
  ports : option (list number);
  probes : option (list string);
}.

(** [z.string()] and [z.number()]. *)
Definition string_of (v : json) : option string :=
  match v with
  | JStr s => Some s
  | _ => None
  end.

Definition number_of (v : json) : option number :=
  match v with
  | JNum n => Some n
  | _ => None
  end.

(** [z.array(item)]. *)
Definition array {A : Type} (item : json → option A) (v : json) : option (list A) :=
  match v with
  | JArr items => mapM item items
  | _ => None
  end.

(** [.min(1)]. *)
Definition min1 {A : Type} (l : list A) : option (list A) :=
  match l with
  | [] => None
  | _ => Some l
  end.

(** [.optional()]: a member that is undefined passes. *)
Definition optional {A : Type} (schema : json → option A) (v : option json)
    : option (option A) :=
  match v with
  | None => Some None
  | Some w => Some <$> schema w
  end.

Definition accepts (arguments : list (string * json)) : option ToolArguments :=
  v ← own_property "target" arguments;
  t ← array string_of v;
  t ← min1 t;
  p ← optional (array number_of) (own_property "ports" arguments);
  q ← optional (array string_of) (own_property "probes" arguments);
  Some {| target := t; ports := p; probes := q |}.

End Schema.
End Schema.

(** ** src/unnamed/part_001

    The file exports the handler of createMcpHandler as it is; its tool
    callback builds the command with [Core.command'] and wraps it in this
    text (lines 42-52, the same in part_000). *)

Module Part001.
Section Part001.
Context {number : Type} `{JsNumber number}.

Definition tool_text (target : list string) (ports : option (list number))
    (probes : option (list string)) : string :=
  "Run this command locally (or in an environment with httpx installed):"
  +:+ newline +:+ newline +:+
  Core.command' target ports probes +:+ newline +:+ newline +:+
  "This server builds the command; execution of CLI binaries isn't performed in the hosted environment.".

End Part001.
End Part001.

(** The text block of the manual answer, route.ts line 161. *)
Definition manual_text (command : string) : string :=
  "Run this command locally (httpx must be installed):" +:+ newline +:+ command.

(** The values whose [length] is undefined or zero: null, a boolean, a
    number, the empty string, the empty array. *)
Definition without_length {number : Type} (v : json number) : Prop :=
  v = JNull ∨ (∃ b, v = JBool b) ∨ (∃ n, v = JNum n) ∨ v = JStr "" ∨ v = JArr [].

(** ** More request bodies for the examples *)

Module Samples.

(** A call of a tool that is not [httpx]. *)
Definition other_tool : json Z :=
  JObj (Demo.rpc_members (JNum 10) "tools/call" ++
        [("params", JObj [("name", JStr "nmap"); ("arguments", JObj Demo.scan)])]).

Definition null_target : list (string * json Z) := [("target", JNull)].
Definition string_target : list (string * json Z) := [("target", JStr "example.com")].
Definition mixed_target : list (string * json Z) :=
  [("target", JArr [JNull; JStr "a"; JNum 5])].
Definition scalar_ports : list (string * json Z) :=
  [("target", JArr [JStr "a"]); ("ports", JNum 80); ("probes", JBool true)].

Definition string_ports : list (string * json Z) :=
  [("target", JArr [JStr "a"]); ("ports", JStr "80,443")].

Definition known : list (json Z) :=
  Demo.known ++
  [JNull; JArr [JStr "tools/list"]; other_tool;
   Demo.call (JNum 11) null_target; Demo.call (JNum 12) string_target;
   Demo.call (JNum 13) mixed_target; Demo.call (JNum 14) scalar_ports;
   Demo.call (JNum 15) string_ports].

Definition parse (text : string) : option (json Z) :=
  List.find (fun v => String.eqb (Demo.stringify v) text) known.

Definition codec : JsonCodec Z := {|
  JSON_parse := parse;
  JSON_stringify := Demo.stringify;
|}.

(** A POST with the accept header application/json. *)
Definition post (v : json Z) : Request :=
  Demo.post (Some "application/json") v.

Definition get_request : Request :=
  Demo.request "GET" (Some "text/event-stream") None.

(** A downstream handler that answers with the accept header it was given. *)
Definition echo (r : Request) : result Response :=
  Ok {| status := 200; response_headers := []; response_body := accept_of r |}.

(** A POST that carries no body. *)
Definition bodiless_post : Request :=
  Demo.request "POST" (Some "application/json") None.

End Samples.

(** * Properties *)

(** ** Strings and joins *)

Lemma append_cons (a : Ascii.ascii) (s t : string) :
  String a s +:+ t = String a (s +:+ t).
Proof. reflexivity. Qed.

Lemma append_nil_r (s : string) : s +:+ "" = s.
Proof. induction s as [|a s IH]; [reflexivity|]. by rewrite append_cons, IH. Qed.

Lemma append_assoc (s t u : string) : (s +:+ t) +:+ u = s +:+ (t +:+ u).
Proof.
  induction s as [|a s IH]; [reflexivity|].
  by rewrite !append_cons, IH.
Qed.

Lemma join_cons (sep x : string) (l : list string) :
  l ≠ [] → join sep (x :: l) = x +:+ sep +:+ join sep l.
Proof. by destruct l. Qed.

(** Joining with a separator: the elements pushed after a non-empty start
    each come out behind one separator. *)
Lemma join_app (sep : string) (l l' : list string) :
  l ≠ [] →
  join sep (l ++ l') = join sep l +:+ foldr (fun x rest => sep +:+ x +:+ rest) "" l'.
Proof.
  induction l as [|x l IH]; [done|]. intros _.
  destruct l as [|y l].
  - destruct l' as [|z l']; simpl.
    + by rewrite append_nil_r.
    + clear IH. f_equal. revert z.
      induction l' as [|w l' IH]; intros z; simpl.
      * by rewrite append_nil_r.
      * by rewrite <- IH.
  - change ((x :: y :: l) ++ l') with (x :: (y :: l) ++ l').
    rewrite join_cons by done. rewrite IH by done.
    rewrite (join_cons sep x (y :: l)) by done.
    by rewrite !append_assoc.
Qed.

Lemma flags_map (probes : list string) :
  foldr (fun x rest => " " +:+ x +:+ rest) "" (map (String.append "-") probes)
  = foldr (fun probe rest => " -" +:+ probe +:+ rest) "" probes.
Proof.
  induction probes as [|p probes IH]; [done|].
  simpl. by rewrite IH.
Qed.

Lemma push_probes_map (args probes : list string) :
  Core.push_probes args probes = args ++ map (String.append "-") probes.
Proof.
  unfold Core.push_probes. revert args.
  induction probes as [|p probes IH]; intros args; simpl.
  - by rewrite app_nil_r.
  - by rewrite IH, <- app_assoc.
Qed.

(** The command of the specification, from a list of arguments that starts
    with the three fixed ones. *)
Lemma spec_command_args (t : string) (target ports probes : list string) :
  t = join "," target →
  "httpx " +:+ join " "
     ((["-u"; t; "-silent"] ++ match ports with
                               | [] => []
                               | _ => ["-p"; join "," ports]
                               end) ++ map (String.append "-") probes)
  = spec_command target ports probes.
Proof.
  intros ->. unfold spec_command.
  rewrite join_app by (by destruct ports).
  rewrite flags_map.
  destruct ports as [|p ports].
  - simpl. by rewrite !append_assoc.
  - rewrite join_app by done. simpl. by rewrite !append_assoc, ?append_nil_r.
Qed.

Section BuilderFacts.
Context {number : Type} `{JsNumber number}.

Lemma sequence_strings (l : list string) :
  sequence (map join_element (map (@JStr number) l)) = Ok l.
Proof.
  induction l as [|s l IH]; [done|].
  simpl. rewrite IH. done.
Qed.

Lemma sequence_numbers (l : list number) :
  sequence (map join_element (map JNum l)) = Ok (map number_to_string l).
Proof.
  induction l as [|n l IH]; [done|].
  simpl. rewrite IH. done.
Qed.

Lemma to_string_strings (l : list string) :
  sequence (map to_string (map (@JStr number) l)) = Ok l.
Proof.
  induction l as [|s l IH]; [done|].
  simpl. rewrite IH. done.
Qed.

(** [forEach] with the pushing callback, when every element prints. *)
Lemma forEach_shown (items : list (json number)) (flags cmd : list string) :
  sequence (map to_string items) = Ok flags →
  foldl (fun acc x => c ← acc; s ← to_string x; Ok (c ++ ["-" +:+ s])) (Ok cmd) items
  = Ok (cmd ++ map (String.append "-") flags).
Proof.
  revert flags cmd. induction items as [|x items IH]; intros flags cmd.
  - intros [= <-]. simpl. by rewrite app_nil_r.
  - change (sequence (map to_string (x :: items)))
      with (a ← to_string x; rest ← sequence (map to_string items); Ok (a :: rest)).
    destruct (to_string x) as [a|e] eqn:Hx; [|done].
    destruct (sequence (map to_string items)) as [rest|e] eqn:Hrest; [|done].
    intros [= <-].
    change (foldl ?f (Ok cmd) (x :: items))
      with (foldl f (c ← Ok cmd; s ← to_string x; Ok (c ++ ["-" +:+ s])) items).
    rewrite Hx. simpl. rewrite (IH rest) by done.
    by rewrite <- app_assoc.
Qed.

(** The element of the result that stands for the element [i]. *)
Lemma sequence_lookup {A B : Type} (f : A → result B) (l : list A) (r : list B)
    (i : nat) (x : A) :
  sequence (map f l) = Ok r → l !! i = Some x → ∃ y, r !! i = Some y ∧ f x = Ok y.
Proof.
  revert r i. induction l as [|z l IH]; intros r i Hseq Hi; [done|].
  change (sequence (map f (z :: l)))
    with (a ← f z; rest ← sequence (map f l); Ok (a :: rest)) in Hseq.
  destruct (f z) as [a|e] eqn:Hz; [|done].
  destruct (sequence (map f l)) as [rest|e] eqn:Hrest; [|done].
  injection Hseq as <-.
  destruct i as [|i]; simpl in *.
  - injection Hi as ->. by exists a.
  - by apply IH.
Qed.

Lemma core_command_spec (target : list string) (ports : option (list number))
    (probes : option (list string)) :
  Core.command target ports probes
  = spec_command target (map number_to_string (default [] ports)) (default [] probes).
Proof.
  unfold Core.command.
  rewrite <- (spec_command_args (join "," target)) by done.
  do 2 f_equal.
  destruct probes as [[|q qs]|]; simpl; rewrite ?push_probes_map, ?app_nil_r;
    destruct ports as [[|p ps]|]; simpl; try done.
Qed.

Lemma core_command'_spec (target : list string) (ports : option (list number))
    (probes : option (list string)) :
  Core.command' target ports probes
  = spec_command target (map number_to_string (default [] ports)) (default [] probes).
Proof.
  unfold Core.command'.
  rewrite <- (spec_command_args (join "," target)) by done.
  do 2 f_equal.
  destruct probes as [[|q qs]|]; simpl; rewrite ?push_probes_map, ?app_nil_r;
    destruct ports as [[|p ps]|]; simpl; try done.
Qed.

End BuilderFacts.

(** ** The manual answers *)

Section ManualFacts.
Context {number : Type} `{JsNumber number} `{JsonCodec number}.

Local Abbreviation json := (json number).

Lemma manual_answer_method (req : Request) (data : json) (ms : list (string * json))
    (method : string) :
  parsed req data → rpc_request data ms method →
  manual_answer req =
    let id := own_property "id" ms in
    if String.eqb method "initialize" then Ok (Some (initialize_response id))
    else if String.eqb method "tools/list" then Ok (Some (tools_list_response id))
    else if String.eqb method "tools/call" then tools_call id (own_property "params" ms)
    else Ok None.
Proof.
  intros Hparse [-> Hmethod].
  unfold manual_answer, req_json. rewrite Hparse. simpl.
  by rewrite Hmethod.
Qed.

Lemma manual_answer_call (req : Request) (data : json) (ms ps : list (string * json))
    (arguments : option (list (string * json))) :
  parsed req data → httpx_call data ms ps arguments →
  manual_answer req =
    let id := own_property "id" ms in
    let args := default [] arguments in
    let targets := or_else (own_property "target" args) (JArr []) in
    if negb (truthy (Some targets)) || length_is_zero (length_of targets)
    then Ok (Some (target_required_response id))
    else command ← build_command targets (own_property "ports" args)
                                 (own_property "probes" args);
         Ok (Some (command_response id command)).
Proof.
  intros Hparse (Hrpc & Hparams & Hname & Hargs).
  rewrite (manual_answer_method req data ms "tools/call") by done.
  simpl. rewrite Hparams. unfold tools_call. simpl.
  rewrite Hname, Hargs. by destruct arguments.
Qed.

End ManualFacts.

(** ** The command builder *)

Section Builder.
Context {number : Type} `{JsNumber number} `{JsonCodec number}.

Local Abbreviation json := (json number).

Lemma sequence_length {A : Type} (l : list (result A)) (r : list A) :
  sequence l = Ok r → length r = length l.
Proof.
  revert r. induction l as [|m l IH]; intros r; simpl.
  - by intros [= <-].
  - destruct m as [a|e]; simpl; [|done].
    destruct (sequence l) as [rest|e]; simpl; [|done].
    intros [= <-]. simpl. by rewrite (IH rest).
Qed.

Lemma array_join_strings (l : list string) (sep : string) :
  array_join (json_strings l) sep = Ok (join sep l).
Proof. unfold array_join, json_strings. by rewrite sequence_strings. Qed.

Lemma push_ports_shown (cmd : list string) (ports : option (list json))
    (shown : list string) :
  sequence (map join_element (default [] ports)) = Ok shown →
  push_ports cmd (JArr <$> ports)
  = Ok (cmd ++ match shown with [] => [] | _ => ["-p"; join "," shown] end).
Proof.
  intros Hshown. unfold push_ports.
  pose proof (sequence_length _ _ Hshown) as Hlen.
  destruct ports as [[|p ps]|].
  - destruct shown; [|done]. simpl. by rewrite app_nil_r.
  - destruct shown; [done|].
    change (default [] (Some (p :: ps))) with (p :: ps) in Hshown.
    unfold fmap, option_fmap, option_map, has_length, array_join.
    by rewrite Hshown.
  - destruct shown; [|done]. simpl. by rewrite app_nil_r.
Qed.

Lemma push_probes_shown (cmd : list string) (probes : option (list json))
    (flags : list string) :
  sequence (map to_string (default [] probes)) = Ok flags →
  push_probes cmd (JArr <$> probes) = Ok (cmd ++ map (String.append "-") flags).
Proof.
  intros Hflags. unfold push_probes.
  pose proof (sequence_length _ _ Hflags) as Hlen.
  destruct probes as [[|q qs]|].
  - destruct flags; [|done]. simpl. by rewrite app_nil_r.
  - by apply (forEach_shown (q :: qs)).
  - destruct flags; [|done]. simpl. by rewrite app_nil_r.
Qed.

(** The manual builder on a target that is an array of strings, and on
    ports and probes that are absent or any arrays whose elements print. *)
Lemma build_command_shown (target : list string) (ports probes : option (list json))
    (shown flags : list string) :
  sequence (map join_element (default [] ports)) = Ok shown →
  sequence (map to_string (default [] probes)) = Ok flags →
  build_command (json_strings target) (JArr <$> ports) (JArr <$> probes)
  = Ok (spec_command target shown flags).
Proof.
  intros Hshown Hflags. unfold build_command.
  rewrite array_join_strings. simpl.
  rewrite (push_ports_shown _ _ shown) by done. simpl.
  rewrite (push_probes_shown _ _ flags) by done. simpl.
  f_equal. by apply (spec_command_args (join "," target)).
Qed.

(** C1.  For every target list, optional list of ports and optional list of
    probes, each builder (the tool callback in its two spellings, and the
    manual one on the same arguments as JSON) returns exactly [httpx -u ],
    the targets joined by commas in input order, [ -silent], then [ -p ] and
    the ports joined by commas only when ports are present and non-empty,
    then for each probe in input order a space, [-] and the probe verbatim.
    The target list with no element, which the callers refuse, follows the
    same format. *)
Theorem command_format (target : list string) (ports : option (list number))
    (probes : option (list string)) :
  let shown := map number_to_string (default [] ports) in
  let flags := default [] probes in
  Core.command target ports probes = spec_command target shown flags
  ∧ Core.command' target ports probes = spec_command target shown flags
  ∧ build_command (json_strings target) (json_numbers <$> ports) (json_strings <$> probes)
    = Ok (spec_command target shown flags).
Proof.
  split; [apply core_command_spec|]. split; [apply core_command'_spec|].
  replace (json_numbers <$> ports) with (JArr <$> (map (@JNum number) <$> ports))
    by (by destruct ports).
  replace (json_strings <$> probes) with (JArr <$> (map (@JStr number) <$> probes))
    by (by destruct probes).
  apply build_command_shown.
  - destruct ports as [ps|]; simpl; [apply sequence_numbers | done].
  - destruct probes as [qs|]; simpl; [apply to_string_strings | done].
Qed.

(** C9.  The builders quote nothing: the one target [a,b] and the two
    targets [a] and [b] are different lists with the same command. *)
Theorem command_not_injective :
  ["a,b"] ≠ ["a"; "b"]
  ∧ Core.command ["a,b"] None None = "httpx -u a,b -silent"
  ∧ Core.command ["a"; "b"] None None = "httpx -u a,b -silent"
  ∧ build_command (json_strings ["a,b"]) None None = Ok "httpx -u a,b -silent"
  ∧ build_command (json_strings ["a"; "b"]) None None = Ok "httpx -u a,b -silent".
Proof. repeat split; done. Qed.

End Builder.

(** ** The two wrappers with a manual path *)

Section Shim.
Context {number : Type} `{JsNumber number} `{JsonCodec number}.

Local Abbreviation json := (json number).

(** What each wrapper does with a POST, from what the [try] block gives. *)
Lemma route_post (req : Request) :
  manual_post req →
  Route.handler_step req =
    match manual_answer req with
    | Ok (Some r) => ([], Respond r)
    | Ok None => ([], Route.delegate req)
    | Throw err => ([ConsoleError "Manual fallback error" err], Route.delegate req)
    end.
Proof.
  intros [Hfallback Hpost]. unfold Route.handler_step.
  by rewrite Hfallback, Hpost.
Qed.

Lemma part000_post (req : Request) :
  method req = "POST" →
  Part000.handler_step req =
    let log := [ConsoleLog "Incoming Accept header:" (accept_of req)] in
    match manual_answer req with
    | Ok (Some r) => (log, Respond r)
    | Ok None => (log, Part000.delegate true req)
    | Throw err =>
        (log ++ [ConsoleError "manual handler parse error" err],
         Part000.delegate true req)
    end.
Proof.
  intros Hpost. unfold Part000.handler_step.
  by rewrite Hpost.
Qed.

(** The delegation code of the three files: a request without a body is
    forwarded, a request with a body ends in the TypeError of the
    constructor or of [clone]. *)
Lemma route_delegate_bodiless (req : Request) :
  body req = None → Route.delegate req = Forward (Route.modifiedRequest req).
Proof.
  intros Hbody. unfold Route.delegate, Route.modifiedRequest, with_headers.
  by rewrite Hbody.
Qed.

Lemma route_delegate_body (req : Request) (text : string) :
  body req = Some text → Route.delegate req = Throws TypeError.
Proof. intros Hbody. unfold Route.delegate. by rewrite Hbody. Qed.

Lemma part000_delegate_bodiless (req : Request) (bodyRead : bool) :
  body req = None → Part000.delegate bodyRead req = Forward (Part000.modified req).
Proof.
  intros Hbody. unfold Part000.delegate, Part000.modified, with_headers, clone.
  rewrite Hbody. simpl. by rewrite Hbody.
Qed.

Lemma part000_delegate_body (req : Request) (bodyRead : bool) (text : string) :
  body req = Some text → Part000.delegate bodyRead req = Throws TypeError.
Proof.
  intros Hbody. unfold Part000.delegate, clone. rewrite Hbody.
  destruct bodyRead; simpl; by rewrite ?Hbody.
Qed.

Lemma part002_step_bodiless (req : Request) :
  body req = None →
  Part002.handler_step req = ([], Forward (Part002.modifiedRequest req)).
Proof.
  intros Hbody. unfold Part002.handler_step, Part002.modifiedRequest, with_headers.
  by rewrite Hbody.
Qed.

Lemma get_path (v : json) (k : string) :
  v ≠ JNull → get (Some v) k = Ok (path [k] v).
Proof.
  intros Hnull. destruct v as [|b|n|s|items|ms]; try done.
  simpl. by destruct (own_property k ms).
Qed.

(** The answer to a call of [httpx] whose [arguments] is anything but
    null. *)
Lemma manual_answer_call_of (req : Request) (data : json) (ms ps : list (string * json))
    (arguments : option json) :
  parsed req data → httpx_call_of data ms ps arguments → arguments ≠ Some JNull →
  manual_answer req =
    let id := own_property "id" ms in
    let args := default (JObj []) arguments in
    let targets := or_else (path ["target"] args) (JArr []) in
    if negb (truthy (Some targets)) || length_is_zero (length_of targets)
    then Ok (Some (target_required_response id))
    else command ← build_command targets (path ["ports"] args) (path ["probes"] args);
         Ok (Some (command_response id command)).
Proof.
  intros Hparse (Hrpc & Hparams & Hname & Hargs) Hnull.
  rewrite (manual_answer_method req data ms "tools/call") by done.
  cbv zeta. change (String.eqb "tools/call" "initialize") with false.
  change (String.eqb "tools/call" "tools/list") with false.
  change (String.eqb "tools/call" "tools/call") with true. cbv iota.
  rewrite Hparams. unfold tools_call.
  change (or_else (Some (JObj ps)) (JObj [])) with (@JObj number ps).
  change (get (Some (JObj ps)) "name") with (@Ok (option json) (own_property "name" ps)).
  change (get (Some (JObj ps)) "arguments")
    with (@Ok (option json) (own_property "arguments" ps)).
  rewrite Hname, Hargs.
  assert (default (JObj []) arguments ≠ JNull) as Hargs'.
  { destruct arguments as [a|]; [|done]. simpl. by intros ->. }
  unfold mbind at 1 2. unfold result_bind.
  change (is_string (Some (JStr "httpx")) "httpx") with true. cbv iota.
  by rewrite !(get_path _ _ Hargs').
Qed.

(** C2, as the code has it.  A POST on the manual path that calls the tool
    [httpx] with [arguments] absent or any value but null, in which [target]
    is absent or the empty list, is answered with status 400 and a JSON-RPC
    object whose [error] has code -32602 and message [target is required],
    the [id] of the request echoed; the answer has no [result], so no
    command.  In route.ts the manual path needs the fallback condition on
    the accept header, in part_000 every POST takes it. *)
Theorem target_required (req : Request) (data : json) (ms ps : list (string * json))
    (arguments : option json) :
  method req = "POST" → parsed req data → httpx_call_of data ms ps arguments →
  arguments ≠ Some JNull →
  path ["target"] (default (JObj []) arguments) = None
  ∨ path ["target"] (default (JObj []) arguments) = Some (JArr []) →
  let id := own_property "id" ms in
  let answer := target_required_response id in
  let o := object [("jsonrpc", Some (JStr "2.0")); ("id", id);
                   ("error", Some (JObj [("code", JNum (number_of_Z (-32602)));
                                         ("message", JStr "target is required")]))] in
  status answer = 400
  ∧ carries answer o
  ∧ path ["id"] o = id
  ∧ path ["error"; "code"] o = Some (JNum (number_of_Z (-32602)))
  ∧ path ["error"; "message"] o = Some (JStr "target is required")
  ∧ path ["result"] o = None
  ∧ (Route.fallback (accept_of req) = true →
     Route.handler_step req = ([], Respond answer))
  ∧ Part000.handler_step req
    = ([ConsoleLog "Incoming Accept header:" (accept_of req)], Respond answer).
Proof.
  intros Hpost Hparse Hcall Hnull Htarget id answer o.
  assert (manual_answer req = Ok (Some answer)) as Hanswer.
  { rewrite (manual_answer_call_of req data ms ps arguments) by done.
    cbv zeta. by destruct Htarget as [-> | ->]. }
  repeat (split; [by destruct id|]).
  split.
  - intros Hfallback. rewrite route_post by done. by rewrite Hanswer.
  - rewrite part000_post by done. by rewrite Hanswer.
Qed.

(** A POST on the manual path whose body is not JSON text: the SyntaxError
    is caught and printed with console.error, no manual answer is made, and
    the handler goes on to its delegation code. *)
Lemma unparsable_body_outcome (req : Request) :
  method req = "POST" → JSON_parse (default "" (body req)) = None →
  (Route.fallback (accept_of req) = true →
   Route.handler_step req
   = ([ConsoleError "Manual fallback error" SyntaxError], Route.delegate req))
  ∧ Part000.handler_step req
    = ([ConsoleLog "Incoming Accept header:" (accept_of req);
        ConsoleError "manual handler parse error" SyntaxError],
       Part000.delegate true req).
Proof.
  intros Hpost Hparse.
  assert (manual_answer req = Throw SyntaxError) as Hanswer.
  { unfold manual_answer, req_json. by rewrite Hparse. }
  split.
  - intros Hfallback. rewrite route_post by done. by rewrite Hanswer.
  - rewrite part000_post by done. by rewrite Hanswer.
Qed.

(** C6.  A POST on the manual path whose method is [initialize] is answered
    with status 200; the body echoes the [id] of the request, whatever it
    is (an absent [id] stays absent), and reports the protocol version
    2025-03-26, the tool-listing capability and the server httpxfinish
    1.0.0. *)
Theorem initialize_answer (req : Request) (data : json) (ms : list (string * json)) :
  method req = "POST" → parsed req data → rpc_request data ms "initialize" →
  let id := own_property "id" ms in
  let answer := initialize_response id in
  let o := object (manualInitialize ++ [("id", id)]) in
  status answer = 200
  ∧ carries answer o
  ∧ path ["id"] o = id
  ∧ path ["result"; "protocolVersion"] o = Some (JStr "2025-03-26")
  ∧ path ["result"; "capabilities"; "tools"; "listChanged"] o = Some (JBool true)
  ∧ path ["result"; "serverInfo"; "name"] o = Some (JStr "httpxfinish")
  ∧ path ["result"; "serverInfo"; "version"] o = Some (JStr "1.0.0")
  ∧ (Route.fallback (accept_of req) = true →
     Route.handler_step req = ([], Respond answer))
  ∧ Part000.handler_step req
    = ([ConsoleLog "Incoming Accept header:" (accept_of req)], Respond answer).
Proof.
  intros Hpost Hparse Hrpc id answer o.
  assert (manual_answer req = Ok (Some answer)) as Hanswer.
  { by rewrite (manual_answer_method req data ms "initialize"). }
  repeat (split; [by destruct id|]).
  split.
  - intros Hfallback. rewrite route_post by done. by rewrite Hanswer.
  - rewrite part000_post by done. by rewrite Hanswer.
Qed.

(** C7.  A POST on the manual path whose method is [tools/list] is answered
    with status 200 and a catalog of exactly one tool: its name is [httpx],
    its input schema is an object whose properties are [target], an array
    of strings, [ports], an array of numbers, and [probes], an array of
    strings, and whose only required property is [target]. *)
Theorem tools_list_answer (req : Request) (data : json) (ms : list (string * json)) :
  method req = "POST" → parsed req data → rpc_request data ms "tools/list" →
  let id := own_property "id" ms in
  let answer := tools_list_response id in
  let array_of type := JObj [("type", JStr "array"); ("items", JObj [("type", JStr type)])] in
  ∃ o tool,
    status answer = 200
    ∧ carries answer o
    ∧ path ["id"] o = id
    ∧ path ["result"; "tools"] o = Some (JArr [tool])
    ∧ path ["name"] tool = Some (JStr "httpx")
    ∧ path ["inputSchema"; "type"] tool = Some (JStr "object")
    ∧ path ["inputSchema"; "properties"] tool
      = Some (JObj [("target", array_of "string"); ("ports", array_of "number");
                    ("probes", array_of "string")])
    ∧ path ["inputSchema"; "required"] tool = Some (JArr [JStr "target"])
    ∧ (Route.fallback (accept_of req) = true →
       Route.handler_step req = ([], Respond answer))
    ∧ Part000.handler_step req
      = ([ConsoleLog "Incoming Accept header:" (accept_of req)], Respond answer).
Proof.
  intros Hpost Hparse Hrpc id answer array_of'.
  assert (manual_answer req = Ok (Some answer)) as Hanswer.
  { by rewrite (manual_answer_method req data ms "tools/list"). }
  eexists _, _.
  split; [done|]. split; [reflexivity|].
  split; [by destruct id|]. split; [by destruct id|].
  repeat (split; [done|]).
  split.
  - intros Hfallback. rewrite route_post by done. by rewrite Hanswer.
  - rewrite part000_post by done. by rewrite Hanswer.
Qed.

(** The answer to a call whose [target] is a non-empty array of strings and
    whose [ports] and [probes] are absent or any arrays of values that
    print. *)
Lemma manual_answer_command (req : Request) (data : json) (ms ps args : list (string * json))
    (target : list string) (ports probes : option (list json))
    (shown flags : list string) :
  parsed req data → httpx_call data ms ps (Some args) →
  own_property "target" args = Some (json_strings target) → target ≠ [] →
  own_property "ports" args = JArr <$> ports →
  sequence (map join_element (default [] ports)) = Ok shown →
  own_property "probes" args = JArr <$> probes →
  sequence (map to_string (default [] probes)) = Ok flags →
  manual_answer req
  = Ok (Some (command_response (own_property "id" ms)
                (spec_command target shown flags))).
Proof.
  intros Hparse Hcall Htarget Hne Hports Hshown Hprobes Hflags.
  rewrite (manual_answer_call req data ms ps (Some args)) by done.
  cbv zeta. change (default [] (Some args)) with args.
  rewrite Htarget, Hports, Hprobes.
  change (or_else (Some (json_strings target)) (JArr []))
    with (@json_strings number target).
  rewrite (build_command_shown target ports probes shown flags) by done.
  by destruct target.
Qed.

(** C10.  On the manual path of a [tools/call] only [target] is looked at
    before the command is built: [ports] and [probes] may be any arrays, of
    whatever values, as long as these print.  The answer has status 200 and
    carries, with the [id] of the request, one text block: the fixed first
    line and the command, which ends with one flag per probe, a space, [-]
    and the printed probe; a probe that is a string, the empty one and those
    with spaces or shell metacharacters included, is printed exactly as it
    came. *)
Theorem probes_embedded_verbatim (req : Request) (data : json)
    (ms ps args : list (string * json)) (target : list string)
    (ports : option (list json)) (probes : list json) (shown flags : list string) :
  method req = "POST" → parsed req data → httpx_call data ms ps (Some args) →
  own_property "target" args = Some (json_strings target) → target ≠ [] →
  own_property "ports" args = JArr <$> ports →
  sequence (map join_element (default [] ports)) = Ok shown →
  own_property "probes" args = Some (JArr probes) →
  sequence (map to_string probes) = Ok flags →
  let command :=
    "httpx -u " +:+ join "," target +:+ " -silent"
    +:+ match shown with [] => "" | _ => " -p " +:+ join "," shown end
    +:+ foldr (fun flag rest => " -" +:+ flag +:+ rest) "" flags in
  let id := own_property "id" ms in
  let answer := command_response id command in
  let text := "Run this command locally (httpx must be installed):"
              +:+ newline +:+ command in
  let o := object [("jsonrpc", Some (JStr "2.0")); ("id", id);
                   ("result", Some (JObj [("content", JArr
                      [JObj [("type", JStr "text"); ("text", JStr text)]])]))] in
  status answer = 200
  ∧ carries answer o
  ∧ path ["id"] o = id
  ∧ path ["result"; "content"] o
    = Some (JArr [JObj [("type", JStr "text"); ("text", JStr text)]])
  ∧ path ["error"] o = None
  ∧ length flags = length probes
  ∧ (∀ i s, probes !! i = Some (JStr s) → flags !! i = Some s)
  ∧ (Route.fallback (accept_of req) = true →
     Route.handler_step req = ([], Respond answer))
  ∧ Part000.handler_step req
    = ([ConsoleLog "Incoming Accept header:" (accept_of req)], Respond answer).
Proof.
  intros Hpost Hparse Hcall Htarget Hne Hports Hshown Hprobes Hflags
    command id answer text o.
  assert (manual_answer req = Ok (Some answer)) as Hanswer.
  { by apply (manual_answer_command req data ms ps args target ports (Some probes)
                shown flags). }
  split; [done|]. split; [done|].
  split; [by destruct id|]. split; [by destruct id|]. split; [by destruct id|].
  split; [by rewrite (sequence_length _ _ Hflags), length_map|].
  split.
  { intros i s Hi.
    destruct (sequence_lookup to_string probes flags i (JStr s) Hflags Hi)
      as (y & Hy & [= <-]). done. }
  split.
  - intros Hfallback. rewrite route_post by done. by rewrite Hanswer.
  - rewrite part000_post by done. by rewrite Hanswer.
Qed.

(** C8.  The command is a function of the three arguments and of nothing
    else.  For the tool callback that is what its definition says: equal
    arguments, equal strings.  For the manual path: two requests that carry
    the same [arguments], whatever their ids, urls, headers and other
    members, get the same command, namely the one [build_command] makes of
    the arguments alone; and building it prints nothing on the console, the
    answer is all there is. *)
Theorem command_generation_pure (req req' : Request) (data data' : json)
    (ms ps ms' ps' : list (string * json)) (arguments : option (list (string * json)))
    (command : string) :
  manual_post req → parsed req data → httpx_call data ms ps arguments →
  manual_post req' → parsed req' data' → httpx_call data' ms' ps' arguments →
  let args := default [] arguments in
  let targets := or_else (own_property "target" args) (JArr []) in
  length_is_zero (length_of targets) = false →
  build_command targets (own_property "ports" args) (own_property "probes" args)
  = Ok command →
  (∀ target target' ports ports' probes probes',
     target = target' → ports = ports' → probes = probes' →
     Core.command (number := number) target ports probes
     = Core.command target' ports' probes')
  ∧ Route.handler_step req
    = ([], Respond (command_response (own_property "id" ms) command))
  ∧ Route.handler_step req'
    = ([], Respond (command_response (own_property "id" ms') command)).
Proof.
  intros Hmanual Hparse Hcall Hmanual' Hparse' Hcall' args targets Hlen Hbuild.
  split; [by intros; subst|].
  assert (truthy (Some targets) = true) as Htruthy.
  { unfold targets, or_else.
    destruct (own_property "target" args) as [v|]; [|done].
    by destruct (truthy (Some v)) eqn:Hv. }
  split.
  - rewrite route_post by done.
    rewrite (manual_answer_call req data ms ps arguments) by done.
    cbv zeta. fold args. fold targets.
    by rewrite Htruthy, Hlen, Hbuild.
  - rewrite route_post by done.
    rewrite (manual_answer_call req' data' ms' ps' arguments) by done.
    cbv zeta. fold args. fold targets.
    by rewrite Htruthy, Hlen, Hbuild.
Qed.

(** *** Delegation *)

(** What route.ts forwards: the url, the method and the body of the
    request, and its headers with [accept] set to both modes and nothing
    else touched. *)
Lemma route_modifiedRequest_frame (req : Request) :
  let r := Route.modifiedRequest req in
  url r = url req ∧ method r = method req ∧ body r = body req
  ∧ headers r !! "accept" = Some both_modes
  ∧ ∀ name, name ≠ "accept" → headers r !! name = headers req !! name.
Proof.
  repeat split; try done.
  - apply lookup_insert_eq.
  - intros name Hname. by apply lookup_insert_ne.
Qed.

Lemma route_delegate_forward (req r : Request) :
  Route.delegate req = Forward r → body req = None ∧ r = Route.modifiedRequest req.
Proof.
  unfold Route.delegate, Route.modifiedRequest, with_headers.
  destruct (body req) as [text|]; simpl; [done|]. by intros [= <-].
Qed.

Lemma route_step_delegate (req : Request) :
  (∃ r, (Route.handler_step req).2 = Respond r)
  ∨ (Route.handler_step req).2 = Route.delegate req.
Proof.
  unfold Route.handler_step.
  destruct (Route.fallback _); [|by right].
  destruct (String.eqb _ _); [|by right].
  destruct (manual_answer req) as [[a|]|e]; [left; by exists a | by right..].
Qed.

Lemma route_forward (req r : Request) :
  (Route.handler_step req).2 = Forward r →
  body req = None ∧ r = Route.modifiedRequest req.
Proof.
  intros Hstep. apply route_delegate_forward.
  destruct (route_step_delegate req) as [[a Ha] | <-]; [|done].
  by rewrite Ha in Hstep.
Qed.

(** Every request that route.ts forwards goes to the core handler as
    [modifiedRequest], and the answer comes back untouched. *)
Lemma route_delegation (req : Request) (r : Request) :
  (Route.handler_step req).2 = Forward r →
  r = Route.modifiedRequest req
  ∧ ∀ coreHandler, Route.handler coreHandler req = coreHandler r.
Proof.
  intros Hstep. split; [by apply route_forward|].
  intros coreHandler. unfold Route.handler. by rewrite Hstep.
Qed.

Lemma part002_forward (req r : Request) :
  (Part002.handler_step req).2 = Forward r →
  body req = None ∧ r = Part002.modifiedRequest req.
Proof.
  unfold Part002.handler_step, Part002.modifiedRequest, with_headers. simpl.
  destruct (body req) as [text|]; simpl; [done|]. by intros [= <-].
Qed.

Lemma part000_delegate_forward (req r : Request) (bodyRead : bool) :
  Part000.delegate bodyRead req = Forward r →
  body req = None ∧ r = Part000.modified req.
Proof.
  destruct (body req) as [text|] eqn:Hbody.
  - by rewrite (part000_delegate_body req bodyRead text).
  - rewrite part000_delegate_bodiless by done. by intros [= <-].
Qed.

Lemma part000_step_delegate (req : Request) :
  (∃ r, (Part000.handler_step req).2 = Respond r)
  ∨ ∃ bodyRead, (Part000.handler_step req).2 = Part000.delegate bodyRead req.
Proof.
  unfold Part000.handler_step.
  destruct (String.eqb _ _); [|right; by exists false].
  destruct (manual_answer req) as [[a|]|e];
    [left; by exists a | right; by exists true..].
Qed.

Lemma part000_forward (req r : Request) :
  (Part000.handler_step req).2 = Forward r →
  body req = None ∧ r = Part000.modified req.
Proof.
  intros Hstep.
  destruct (part000_step_delegate req) as [[a Ha] | [bodyRead Hd]].
  - by rewrite Ha in Hstep.
  - rewrite Hd in Hstep. by apply (part000_delegate_forward req r bodyRead).
Qed.

(** part_000 forwards the headers as they came when the accept header
    names text/event-stream. *)
Lemma part000_modified_unpatched (req : Request) :
  includes (accept_of req) "text/event-stream" = true →
  Part000.modified req = with_headers req (headers req).
Proof.
  intros Hsse. unfold Part000.modified, Part000.patched. by rewrite Hsse.
Qed.

Lemma delegation_not_respond (request : result Request) (r : Response) :
  delegation request ≠ Respond r.
Proof. by destruct request. Qed.

Lemma route_respond (req : Request) (r : Response) :
  (Route.handler_step req).2 = Respond r →
  manual_post req ∧ manual_answer req = Ok (Some r)
  ∧ Route.handler_step req = ([], Respond r).
Proof.
  unfold Route.handler_step, manual_post, Route.delegate.
  destruct (Route.fallback _);
    [|by intros ?%delegation_not_respond].
  destruct (String.eqb _ _) eqn:Hpost;
    [|by intros ?%delegation_not_respond].
  apply String.eqb_eq in Hpost.
  destruct (manual_answer req) as [[a|]|e]; simpl;
    [by intros [= ->] | by intros ?%delegation_not_respond..].
Qed.

Lemma part000_respond (req : Request) (r : Response) :
  (Part000.handler_step req).2 = Respond r →
  method req = "POST" ∧ manual_answer req = Ok (Some r).
Proof.
  unfold Part000.handler_step, Part000.delegate.
  destruct (String.eqb _ _) eqn:Hpost;
    [|by intros ?%delegation_not_respond].
  apply String.eqb_eq in Hpost.
  destruct (manual_answer req) as [[a|]|e]; simpl;
    [by intros [= ->] | by intros ?%delegation_not_respond..].
Qed.

(** C3, as the code has it.  route.ts takes its fallback path exactly when
    the accept header, absent counting as empty, lacks application/json or
    lacks text/event-stream, and it answers a request itself exactly when,
    besides, the request is a POST and the [try] block returns an answer.
    part_000 has no condition on the header: it answers itself exactly when
    the request is a POST and the same block returns an answer.  A request
    whose accept header names both modes is not examined by route.ts, which
    prints nothing, goes to its delegation code and, the request having no
    body, forwards it to the core handler. *)
Theorem manual_path_condition (req : Request) (r : Response) :
  let accept := accept_of req in
  let lacks_a_mode :=
    includes accept "application/json" = false
    ∨ includes accept "text/event-stream" = false in
  (Route.fallback accept = true ↔ lacks_a_mode)
  ∧ ((Route.handler_step req).2 = Respond r
     ↔ lacks_a_mode ∧ method req = "POST" ∧ manual_answer req = Ok (Some r))
  ∧ ((Part000.handler_step req).2 = Respond r
     ↔ method req = "POST" ∧ manual_answer req = Ok (Some r))
  ∧ (includes accept "application/json" = true →
     includes accept "text/event-stream" = true →
     Route.handler_step req = ([], Route.delegate req)
     ∧ (body req = None →
        Route.handler_step req = ([], Forward (Route.modifiedRequest req)))).
Proof.
  intros accept lacks_a_mode.
  assert (Route.fallback accept = true ↔ lacks_a_mode) as Hguard.
  { unfold Route.fallback, lacks_a_mode.
    destruct (includes accept "application/json"),
      (includes accept "text/event-stream"); simpl; intuition congruence. }
  split; [done|]. split; [|split].
  - split.
    + intros Hstep. apply route_respond in Hstep as ([Hfallback Hpost] & Hanswer & _).
      split; [by apply Hguard|]. done.
    + intros (Hlacks & Hpost & Hanswer).
      rewrite route_post; [by rewrite Hanswer|].
      split; [by apply Hguard | done].
  - split.
    + apply part000_respond.
    + intros [Hpost Hanswer]. rewrite part000_post by done. by rewrite Hanswer.
  - intros Hjson Hsse.
    assert (Route.handler_step req = ([], Route.delegate req)) as Hstep.
    { unfold Route.handler_step, Route.fallback. fold accept.
      by rewrite Hjson, Hsse. }
    split; [done|]. intros Hbody. by rewrite Hstep, route_delegate_bodiless.
Qed.

(** C5, as the code has it.  Whatever a wrapper forwards has the url, the
    method and the body of the request and, but for [accept], its headers;
    the answer of the downstream handler is returned as it is.  route.ts and
    part_002 always set [accept] to both modes.  part_000 sets it to both
    modes when the accept header lacks text/event-stream and otherwise
    forwards the headers unchanged. *)
Theorem delegation_frame (req r : Request) :
  ((Route.handler_step req).2 = Forward r ∨ (Part002.handler_step req).2 = Forward r →
   url r = url req ∧ method r = method req ∧ body r = body req
   ∧ headers r !! "accept" = Some both_modes
   ∧ (∀ name, name ≠ "accept" → headers r !! name = headers req !! name))
  ∧ ((Route.handler_step req).2 = Forward r →
     ∀ coreHandler, Route.handler coreHandler req = coreHandler r)
  ∧ ((Part002.handler_step req).2 = Forward r →
     ∀ coreHandler, Part002.handler coreHandler req = coreHandler r)
  ∧ ((Part000.handler_step req).2 = Forward r →
     url r = url req ∧ method r = method req ∧ body r = body req
     ∧ (∀ name, name ≠ "accept" → headers r !! name = headers req !! name)
     ∧ (includes (accept_of req) "text/event-stream" = false →
        headers r !! "accept" = Some both_modes)
     ∧ (includes (accept_of req) "text/event-stream" = true →
        headers r = headers req)
     ∧ ∀ baseHandler, Part000.handler baseHandler req = baseHandler r).
Proof.
  split; [|split; [|split]].
  - intros [Hstep | Hstep].
    + apply route_forward in Hstep as [_ ->].
      apply route_modifiedRequest_frame.
    + apply part002_forward in Hstep as [_ ->].
      apply route_modifiedRequest_frame.
  - intros Hstep. by apply route_delegation.
  - intros Hstep coreHandler. unfold Part002.handler. by rewrite Hstep.
  - intros Hstep.
    assert (r = Part000.modified req) as Hr by (by apply part000_forward).
    repeat split; try (by subst r).
    + intros name Hname. subst r. unfold Part000.modified, Part000.patched.
      destruct (includes _ _); simpl; [done|]. by apply lookup_insert_ne.
    + intros Hsse. subst r. unfold Part000.modified, Part000.patched.
      rewrite Hsse. apply lookup_insert_eq.
    + intros Hsse. subst r. by rewrite part000_modified_unpatched.
    + intros baseHandler. unfold Part000.handler. by rewrite Hstep.
Qed.

End Shim.

(** ** The theorems at work on concrete requests *)

Section Examples.
Import Demo.

Example scan_command :
  Core.command ["example.com"] None (Some ["title"; "status-code"])
  = "httpx -u example.com -silent -title -status-code".
Proof. reflexivity. Qed.

Example scan_answered :
  (Route.handler_step scan_request).2
  = Respond (command_response (Some (JNum 4))
      "httpx -u example.com,b.org -silent -p 80,443 -title -status-code").
Proof. vm_compute. reflexivity. Qed.

(** part_000 answers a POST itself even when the accept header names both
    modes. *)
Example part000_ignores_accept :
  (Part000.handler_step (post (Some both_modes) (rpc (JNum 7) "initialize"))).2
  = Respond (initialize_response (Some (JNum 7))).
Proof. vm_compute. reflexivity. Qed.

(** C2, as the specification states it, fails: this call of [httpx] has
    [arguments] null, so no [target], and gets no answer with status 400 and
    no answer at all; reading [target] from null throws inside the [try]
    block. *)
Lemma null_arguments_not_answered :
  httpx_call_of null_call
    (rpc_members (JNum 9) "tools/call" ++
     [("params", JObj [("name", JStr "httpx"); ("arguments", JNull)])])
    [("name", JStr "httpx"); ("arguments", JNull)] (Some JNull)
  ∧ path ["params"; "arguments"; "target"] null_call = None
  ∧ manual_answer (post (Some "application/json") null_call) = Throw TypeError
  ∧ (Route.handler_step (post (Some "application/json") null_call)).1
    = [ConsoleError "Manual fallback error" TypeError]
  ∧ ¬ ∃ r, (Route.handler_step (post (Some "application/json") null_call)).2
           = Respond r.
Proof.
  split; [repeat split; reflexivity|].
  split; [reflexivity|]. split; [vm_compute; reflexivity|].
  split; [vm_compute; reflexivity|].
  intros [r Hr]. vm_compute in Hr. discriminate Hr.
Qed.

Lemma target_required_witness :
  manual_post empty_target_request
  ∧ Route.handler_step empty_target_request
    = ([], Respond (target_required_response (Some (JNum 2))))
  ∧ status (target_required_response (Some (JNum 2))) = 400.
Proof.
  destruct (target_required empty_target_request
              (call (JNum 2) [("target", JArr [])])
              (call_members (JNum 2) [("target", JArr [])])
              (params_members [("target", JArr [])])
              (Some (JObj [("target", JArr [])])))
    as (Hstatus & _ & _ & _ & _ & _ & Hroute & _).
  - reflexivity.
  - vm_compute. reflexivity.
  - repeat split; reflexivity.
  - discriminate.
  - right. reflexivity.
  - split; [split; reflexivity|]. split; [apply Hroute; reflexivity | exact Hstatus].
Defined.

(** C4 at work.  The body of this POST is not JSON text.  Both wrappers
    catch the SyntaxError and print it, and make no manual answer; but the
    body has been read, so the delegation code that follows the [try] block
    throws a TypeError that nothing catches, and no request reaches the
    downstream handler.  The same POST without a body is forwarded. *)
Theorem unparsable_body_not_forwarded :
  manual_post broken_request
  ∧ JSON_parse (default "" (body broken_request)) = None
  ∧ Route.handler_step broken_request
    = ([ConsoleError "Manual fallback error" SyntaxError], Throws TypeError)
  ∧ (∀ coreHandler, Route.handler coreHandler broken_request = Throw TypeError)
  ∧ Part000.handler_step broken_request
    = ([ConsoleLog "Incoming Accept header:" "application/json";
        ConsoleError "manual handler parse error" SyntaxError],
       Throws TypeError)
  ∧ (∀ baseHandler, Part000.handler baseHandler broken_request = Throw TypeError)
  ∧ Route.handler_step Samples.bodiless_post
    = ([ConsoleError "Manual fallback error" SyntaxError],
       Forward (Route.modifiedRequest Samples.bodiless_post)).
Proof.
  split; [split; reflexivity|]. split; [vm_compute; reflexivity|].
  split; [vm_compute; reflexivity|]. split; [intros; vm_compute; reflexivity|].
  split; [vm_compute; reflexivity|]. split; [intros; vm_compute; reflexivity|].
  vm_compute. reflexivity.
Qed.

Lemma initialize_witness :
  manual_post initialize_request
  ∧ Route.handler_step initialize_request
    = ([], Respond (initialize_response (Some (JNum 7)))).
Proof.
  destruct (initialize_answer initialize_request (rpc (JNum 7) "initialize")
              (rpc_members (JNum 7) "initialize"))
    as (_ & _ & _ & _ & _ & _ & _ & Hroute & _).
  - reflexivity.
  - vm_compute. reflexivity.
  - split; reflexivity.
  - split; [split; reflexivity|]. apply Hroute. reflexivity.
Defined.

Lemma tools_list_witness :
  manual_post list_request
  ∧ Route.handler_step list_request
    = ([], Respond (tools_list_response (Some (JStr "a")))).
Proof.
  destruct (tools_list_answer list_request (rpc (JStr "a") "tools/list")
              (rpc_members (JStr "a") "tools/list"))
    as (o & tool & _ & _ & _ & _ & _ & _ & _ & _ & Hroute & _).
  - reflexivity.
  - vm_compute. reflexivity.
  - split; reflexivity.
  - split; [split; reflexivity|]. apply Hroute. reflexivity.
Defined.

Lemma probes_embedded_witness :
  manual_post unchecked_request
  ∧ Route.handler_step unchecked_request
    = ([], Respond (command_response (Some (JNum 5))
         "httpx -u example.com -silent -p 80; id -title -o /tmp/x -$(id) -")).
Proof.
  destruct (probes_embedded_verbatim unchecked_request
              (call (JNum 5) unchecked) (call_members (JNum 5) unchecked)
              (params_members unchecked) unchecked
              ["example.com"] (Some [JStr "80; id"])
              [JStr "title -o /tmp/x"; JStr "$(id)"; JStr ""]
              ["80; id"] ["title -o /tmp/x"; "$(id)"; ""])
    as (_ & _ & _ & _ & _ & _ & _ & Hroute & _).
  - reflexivity.
  - vm_compute. reflexivity.
  - repeat split; reflexivity.
  - reflexivity.
  - discriminate.
  - reflexivity.
  - reflexivity.
  - reflexivity.
  - reflexivity.
  - split; [split; reflexivity|]. apply Hroute. reflexivity.
Defined.

Lemma command_generation_witness :
  Route.handler_step scan_request
  = ([], Respond (command_response (Some (JNum 4))
       "httpx -u example.com,b.org -silent -p 80,443 -title -status-code"))
  ∧ Route.handler_step scan_request'
    = ([], Respond (command_response (Some (JStr "x"))
         "httpx -u example.com,b.org -silent -p 80,443 -title -status-code")).
Proof.
  destruct (command_generation_pure scan_request scan_request'
              (call (JNum 4) scan) (call (JStr "x") scan)
              (call_members (JNum 4) scan) (params_members scan)
              (call_members (JStr "x") scan) (params_members scan)
              (Some scan)
              "httpx -u example.com,b.org -silent -p 80,443 -title -status-code")
    as (_ & Hfirst & Hsecond).
  - split; reflexivity.
  - vm_compute. reflexivity.
  - repeat split; reflexivity.
  - split; reflexivity.
  - vm_compute. reflexivity.
  - repeat split; reflexivity.
  - reflexivity.
  - reflexivity.
  - split; [exact Hfirst | exact Hsecond].
Defined.

Lemma manual_path_witness :
  includes (accept_of initialize_request) "text/event-stream" = true
  ∧ (Route.handler_step initialize_request).2
    = Respond (initialize_response (Some (JNum 7))).
Proof.
  destruct (manual_path_condition initialize_request
              (initialize_response (Some (JNum 7)))) as (_ & [_ Hmanual] & _).
  split; [reflexivity|].
  apply Hmanual. split; [left; reflexivity|].
  split; [reflexivity|]. vm_compute. reflexivity.
Defined.

(** C3, as the specification states it, fails: this POST of [initialize] has
    an accept header that names text/event-stream, and route.ts answers it
    itself and forwards nothing. *)
Lemma event_stream_answered_manually :
  includes (accept_of initialize_request) "text/event-stream" = true
  ∧ (Route.handler_step initialize_request).2
    = Respond (initialize_response (Some (JNum 7)))
  ∧ ¬ ∃ r, (Route.handler_step initialize_request).2 = Forward r.
Proof.
  split; [reflexivity|]. split; [vm_compute; reflexivity|].
  intros [r Hr]. vm_compute in Hr. discriminate Hr.
Qed.

Lemma delegation_witness :
  headers (Route.modifiedRequest Samples.get_request) !! "accept" = Some both_modes
  ∧ Route.handler Samples.echo Samples.get_request
    = Samples.echo (Route.modifiedRequest Samples.get_request).
Proof.
  destruct (delegation_frame Samples.get_request
              (Route.modifiedRequest Samples.get_request))
    as (Hframe & Hroute & _).
  split.
  - apply Hframe. left. vm_compute. reflexivity.
  - apply Hroute. vm_compute. reflexivity.
Defined.

(** C5, as the specification states it, fails on part_000: this GET without
    a body is forwarded with the accept header it came with, which names
    text/event-stream and not application/json. *)
Lemma part000_forwards_accept_unpatched :
  body Samples.get_request = None
  ∧ ∃ r, (Part000.handler_step Samples.get_request).2 = Forward r
         ∧ headers r !! "accept" = Some "text/event-stream"
         ∧ includes "text/event-stream" "application/json" = false
         ∧ headers r !! "accept" ≠ Some both_modes.
Proof.
  split; [reflexivity|].
  exists (Part000.modified Samples.get_request).
  split; [vm_compute; reflexivity|].
  split; [vm_compute; reflexivity|].
  split; [reflexivity|].
  vm_compute. discriminate.
Qed.

End Examples.

(** * Further properties of the handlers *)

(** ** Requests the manual path leaves alone *)

Section FallThrough.
Context {number : Type} `{JsNumber number} `{JsonCodec number}.

Local Abbreviation json := (json number).

Lemma route_not_fallback (req : Request) :
  Route.fallback (accept_of req) = false →
  Route.handler_step req = ([], Route.delegate req).
Proof. intros Hfallback. unfold Route.handler_step. by rewrite Hfallback. Qed.

(** When the [try] block ends without a [return], route.ts goes on to its
    delegation code and prints nothing, whatever the accept header. *)
Lemma route_silent (req : Request) :
  manual_answer req = Ok None →
  Route.handler_step req = ([], Route.delegate req).
Proof.
  intros Hanswer. unfold Route.handler_step.
  destruct (Route.fallback _); [|done].
  destruct (String.eqb _ _); [|done].
  by rewrite Hanswer.
Qed.

Lemma manual_answer_unknown (req : Request) (data : json) :
  parsed req data → data ≠ JNull →
  (∀ s, path ["method"] data = Some (JStr s) →
        s ≠ "initialize" ∧ s ≠ "tools/list" ∧ s ≠ "tools/call") →
  manual_answer req = Ok None.
Proof.
  intros Hparse Hnull Hmethod.
  unfold manual_answer, req_json. rewrite Hparse.
  destruct data as [|b|n|s|items|ms]; try done.
  simpl in *.
  destruct (own_property "method" ms) as [[|b|n|s|items|ms']|]; try done.
  destruct (Hmethod s eq_refl) as (H1 & H2 & H3).
  apply String.eqb_neq in H1, H2, H3.
  simpl. by rewrite H1, H2, H3.
Qed.

(** The outcome of a wrapper once the [try] block is over without an
    answer, for a request that came with a body: the body was read, and the
    delegation code throws. *)
Lemma body_read_throws (req : Request) (text : string) (log log' : list log_event) :
  body req = Some text →
  (log, Route.delegate req) = (log, Throws TypeError)
  ∧ (log', Part000.delegate true req) = (log', Throws TypeError).
Proof.
  intros Hbody.
  by rewrite (route_delegate_body req text), (part000_delegate_body req true text).
Qed.

(** X1.  A request whose method is not POST is never answered by the
    wrapper, and its body is not read.  Without a body it is forwarded:
    route.ts prints nothing, part_000 prints the accept header.  With a body
    (a DELETE may have one) the constructor refuses the stream and the
    handler ends in a TypeError. *)
Theorem non_post_never_answered (req : Request) :
  method req ≠ "POST" →
  (body req = None →
   Route.handler_step req = ([], Forward (Route.modifiedRequest req))
   ∧ Part000.handler_step req
     = ([ConsoleLog "Incoming Accept header:" (accept_of req)],
        Forward (Part000.modified req)))
  ∧ (∀ text, body req = Some text →
     Route.handler_step req = ([], Throws TypeError)
     ∧ Part000.handler_step req
       = ([ConsoleLog "Incoming Accept header:" (accept_of req)], Throws TypeError)).
Proof.
  intros Hmethod%String.eqb_neq.
  assert (Route.handler_step req = ([], Route.delegate req)) as ->.
  { unfold Route.handler_step. rewrite Hmethod. by destruct (Route.fallback _). }
  assert (Part000.handler_step req
          = ([ConsoleLog "Incoming Accept header:" (accept_of req)],
             Part000.delegate false req)) as ->.
  { unfold Part000.handler_step. by rewrite Hmethod. }
  split.
  - intros Hbody. by rewrite route_delegate_bodiless, part000_delegate_bodiless.
  - intros text Hbody.
    by rewrite (route_delegate_body req text), (part000_delegate_body req false text).
Qed.

(** X2.  A POST whose body is JSON other than null and whose [method] is
    none of [initialize], [tools/list] and [tools/call] (a method that is
    absent or not a string, and a body that is not an object, included) gets
    no manual answer and nothing is printed for it.  It is not forwarded
    either: its body has been read, and the delegation code ends in a
    TypeError. *)
Theorem unknown_method_not_answered (req : Request) (data : json) (text : string) :
  method req = "POST" → body req = Some text → parsed req data → data ≠ JNull →
  (∀ s, path ["method"] data = Some (JStr s) →
        s ≠ "initialize" ∧ s ≠ "tools/list" ∧ s ≠ "tools/call") →
  manual_answer req = Ok None
  ∧ Route.handler_step req = ([], Throws TypeError)
  ∧ Part000.handler_step req
    = ([ConsoleLog "Incoming Accept header:" (accept_of req)], Throws TypeError).
Proof.
  intros Hpost Hbody Hparse Hnull Hmethod.
  pose proof (manual_answer_unknown req data Hparse Hnull Hmethod) as Hanswer.
  split; [done|]. split.
  - rewrite route_silent by done. by apply (body_read_throws req text [] []).
  - rewrite part000_post by done. rewrite Hanswer.
    by apply (body_read_throws req text [] _).
Qed.

(** X3.  A [tools/call] that does not name the tool [httpx] (another name,
    no name, no [params], [params] that is not an object) gets no manual
    answer and nothing is printed for it; its body has been read, and the
    delegation code ends in a TypeError. *)
Theorem other_tool_not_answered (req : Request) (data : json)
    (ms : list (string * json)) (text : string) :
  method req = "POST" → body req = Some text → parsed req data →
  rpc_request data ms "tools/call" →
  path ["name"] (or_else (own_property "params" ms) (JObj [])) ≠ Some (JStr "httpx") →
  manual_answer req = Ok None
  ∧ Route.handler_step req = ([], Throws TypeError)
  ∧ Part000.handler_step req
    = ([ConsoleLog "Incoming Accept header:" (accept_of req)], Throws TypeError).
Proof.
  intros Hpost Hbody Hparse Hrpc Hname.
  assert (manual_answer req = Ok None) as Hanswer.
  { rewrite (manual_answer_method req data ms "tools/call") by done.
    simpl. unfold tools_call.
    set (params := or_else (own_property "params" ms) (JObj [])) in *.
    assert (params ≠ JNull) as Hnull.
    { unfold params, or_else.
      destruct (own_property "params" ms) as [[|b|n|s|items|ps]|]; try done.
      - simpl. by destruct b.
      - simpl. by destruct (negb _).
      - simpl. by destruct (negb _). }
    destruct params as [|b|n|s|items|ps]; try done.
    simpl in *.
    destruct (own_property "name" ps) as [[|b|n|s|items|ps']|]; try done.
    simpl. destruct (String.eqb s "httpx") eqn:Hs; [|done].
    apply String.eqb_eq in Hs as ->. done. }
  split; [done|]. split.
  - rewrite route_silent by done. by apply (body_read_throws req text [] []).
  - rewrite part000_post by done. rewrite Hanswer.
    by apply (body_read_throws req text [] _).
Qed.

(** X4.  A POST whose body is the JSON text [null]: taking [id], [method]
    and [params] out of null throws a TypeError inside the [try] block,
    which the wrapper catches and prints; then the delegation code, the
    body having been read, throws a TypeError of its own, which nothing
    catches. *)
Theorem null_body_not_answered (req : Request) (text : string) :
  method req = "POST" → body req = Some text → parsed req JNull →
  manual_answer req = Throw TypeError
  ∧ (Route.fallback (accept_of req) = true →
     Route.handler_step req
     = ([ConsoleError "Manual fallback error" TypeError], Throws TypeError))
  ∧ Part000.handler_step req
    = ([ConsoleLog "Incoming Accept header:" (accept_of req);
        ConsoleError "manual handler parse error" TypeError],
       Throws TypeError).
Proof.
  intros Hpost Hbody Hparse.
  assert (manual_answer req = Throw TypeError) as Hanswer.
  { unfold manual_answer, req_json. by rewrite Hparse. }
  split; [done|]. split.
  - intros Hfallback. rewrite route_post by done. rewrite Hanswer.
    by apply (body_read_throws req text _ []).
  - rewrite part000_post by done. rewrite Hanswer.
    by apply (body_read_throws req text [] _).
Qed.

End FallThrough.

(** ** What a manual answer can be, and what is printed *)

Section Answers.
Context {number : Type} `{JsNumber number} `{JsonCodec number}.

Local Abbreviation json := (json number).

Lemma bind_ok {A B : Type} (m : result A) (f : A → result B) (b : B) :
  m ≫= f = Ok b → ∃ a, m = Ok a ∧ f a = Ok b.
Proof. destruct m as [a|e]; [|done]. intros Hf. by exists a. Qed.

Lemma tools_call_ok (id params : option json) (r : Response) :
  tools_call id params = Ok (Some r) →
  r = target_required_response id ∨ ∃ command, r = command_response id command.
Proof.
  unfold tools_call. intros Hcall.
  apply bind_ok in Hcall as (name & _ & Hcall).
  apply bind_ok in Hcall as (arguments & _ & Hcall).
  destruct (is_string name "httpx"); [|done].
  apply bind_ok in Hcall as (target & _ & Hcall).
  apply bind_ok in Hcall as (ports & _ & Hcall).
  apply bind_ok in Hcall as (probes & _ & Hcall).
  destruct (_ || _).
  - injection Hcall as <-. by left.
  - apply bind_ok in Hcall as (command & _ & [= <-]).
    right. by exists command.
Qed.

Lemma manual_answer_ok (req : Request) (r : Response) :
  manual_answer req = Ok (Some r) →
  ∃ data, parsed req data ∧
    let id := path ["id"] data in
    (path ["method"] data = Some (JStr "initialize") ∧ r = initialize_response id)
    ∨ (path ["method"] data = Some (JStr "tools/list") ∧ r = tools_list_response id)
    ∨ (path ["method"] data = Some (JStr "tools/call")
       ∧ (r = target_required_response id
          ∨ ∃ command, r = command_response id command)).
Proof.
  unfold manual_answer, req_json, parsed.
  destruct (JSON_parse _) as [data|]; [|done].
  intros Hanswer. exists data. split; [done|].
  destruct data as [|b|n|s|items|ms]; try done.
  simpl in *.
  destruct (own_property "id" ms) as [id|];
    (destruct (own_property "method" ms) as [[|b|n|s|items|ms']|]; try done;
     simpl in *;
     destruct (String.eqb s "initialize") eqn:H1;
       [apply String.eqb_eq in H1 as ->; injection Hanswer as <-; by left|];
     destruct (String.eqb s "tools/list") eqn:H2;
       [apply String.eqb_eq in H2 as ->; injection Hanswer as <-; right; by left|];
     destruct (String.eqb s "tools/call") eqn:H3; [|done];
     apply String.eqb_eq in H3 as ->; right; right; split; [done|];
     by apply (tools_call_ok _ _ _ Hanswer)).
Qed.

(** X5.  Whatever route.ts or part_000 answers by itself is an answer to a
    POST with a body that is JSON, has the content type application/json,
    and is one of four: the initialize answer, the tool catalog, the
    [target is required] error, or a command answer, each with the [id] of
    the body.  Its status is 200, but for the error, which alone has 400. *)
Theorem manual_answer_shapes (req : Request) (r : Response) :
  (Route.handler_step req).2 = Respond r ∨ (Part000.handler_step req).2 = Respond r →
  method req = "POST"
  ∧ response_headers r = [("content-type", "application/json")]
  ∧ ∃ data, parsed req data ∧
      let id := path ["id"] data in
      (path ["method"] data = Some (JStr "initialize")
       ∧ r = initialize_response id ∧ status r = 200)
      ∨ (path ["method"] data = Some (JStr "tools/list")
         ∧ r = tools_list_response id ∧ status r = 200)
      ∨ (path ["method"] data = Some (JStr "tools/call")
         ∧ ((r = target_required_response id ∧ status r = 400)
            ∨ ∃ command, r = command_response id command ∧ status r = 200)).
Proof.
  intros Hstep.
  assert (method req = "POST" ∧ manual_answer req = Ok (Some r)) as [Hpost Hanswer].
  { destruct Hstep as [Hstep | Hstep].
    - by apply route_respond in Hstep as ([_ ?] & ? & _).
    - by apply part000_respond. }
  split; [done|].
  destruct (manual_answer_ok req r Hanswer) as (data & Hparse & Hshape).
  split.
  - destruct Hshape as [[_ ->] | [[_ ->] | [_ [-> | [c ->]]]]]; done.
  - exists data. split; [done|]. simpl.
    destruct Hshape as [[? ->] | [[? ->] | [? [-> | [c ->]]]]]; eauto 8.
Qed.

(** X6.  Console output.  route.ts prints one line, with console.error and
    the exception in it, exactly when the [try] block threw, and otherwise
    nothing: nothing when it did not enter the block and nothing when the
    block ended or returned; an answer never comes with a line.  part_000
    prints the accept header of every request first, and then one line with
    console.error exactly when the block threw. *)
Theorem console_discipline (req : Request) :
  ((Route.handler_step req).1 = []
   ↔ ¬ (manual_post req ∧ ∃ err, manual_answer req = Throw err))
  ∧ (∀ err, manual_post req → manual_answer req = Throw err →
       (Route.handler_step req).1 = [ConsoleError "Manual fallback error" err])
  ∧ (∀ r, (Route.handler_step req).2 = Respond r → (Route.handler_step req).1 = [])
  ∧ ((Part000.handler_step req).1 = [ConsoleLog "Incoming Accept header:" (accept_of req)]
     ↔ ¬ (method req = "POST" ∧ ∃ err, manual_answer req = Throw err))
  ∧ (∀ err, method req = "POST" → manual_answer req = Throw err →
       (Part000.handler_step req).1
       = [ConsoleLog "Incoming Accept header:" (accept_of req);
          ConsoleError "manual handler parse error" err]).
Proof.
  assert (∀ (P : Prop) (l : list log_event), ¬ P → (l = l ↔ ¬ P)) as Hsame
    by (intros P l HP; by split).
  assert (∀ (P : Prop) (l k : list log_event), l ≠ k → P → (l = k ↔ ¬ P)) as Hdiff.
  { intros P l k Hne HP. split; [by intros Heq | by intros HnP]. }
  split; [|split; [|split; [|split]]].
  - unfold Route.handler_step, manual_post.
    destruct (Route.fallback _); [|apply Hsame; by intros [[? _] _]].
    destruct (String.eqb _ _) eqn:Hpost.
    + apply String.eqb_eq in Hpost.
      destruct (manual_answer req) as [[a|]|e]; simpl.
      * apply Hsame. by intros [_ [err Herr]].
      * apply Hsame. by intros [_ [err Herr]].
      * apply Hdiff; [done|]. split; [done|]. by exists e.
    + apply String.eqb_neq in Hpost. apply Hsame. by intros [[_ ?] _].
  - intros err Hmanual Hanswer. rewrite route_post by done. by rewrite Hanswer.
  - intros r Hstep. by apply route_respond in Hstep as (_ & _ & ->).
  - unfold Part000.handler_step.
    destruct (String.eqb _ _) eqn:Hpost.
    + apply String.eqb_eq in Hpost.
      destruct (manual_answer req) as [[a|]|e]; simpl.
      * apply Hsame. by intros [_ [err Herr]].
      * apply Hsame. by intros [_ [err Herr]].
      * apply Hdiff; [done|]. split; [done|]. by exists e.
    + apply String.eqb_neq in Hpost. apply Hsame. by intros [? _].
  - intros err Hpost Hanswer. rewrite part000_post by done. by rewrite Hanswer.
Qed.

End Answers.

(** ** The wrappers against each other *)

Section Wrappers.
Context {number : Type} `{JsNumber number} `{JsonCodec number}.

Local Abbreviation json := (json number).

Lemma manual_answer_body (req req' : Request) :
  body req = body req' → manual_answer req = manual_answer req'.
Proof. intros Hbody. unfold manual_answer, req_json. by rewrite Hbody. Qed.

Lemma accept_of_modifiedRequest (req : Request) :
  accept_of (Route.modifiedRequest req) = both_modes.
Proof.
  unfold accept_of, Route.modifiedRequest, with_headers. simpl.
  by rewrite lookup_insert_eq.
Qed.

Lemma modifiedRequest_twice (req : Request) :
  Route.modifiedRequest (Route.modifiedRequest req) = Route.modifiedRequest req.
Proof.
  unfold Route.modifiedRequest, with_headers. simpl.
  by rewrite insert_insert_eq.
Qed.

Lemma route_step_modifiedRequest (req : Request) :
  Route.handler_step (Route.modifiedRequest req)
  = ([], Route.delegate (Route.modifiedRequest req)).
Proof.
  rewrite route_not_fallback; [done|].
  by rewrite accept_of_modifiedRequest.
Qed.

Lemma route_delegate_twice (req : Request) :
  body req = None →
  Route.delegate (Route.modifiedRequest req) = Forward (Route.modifiedRequest req).
Proof.
  intros Hbody. rewrite route_delegate_bodiless by done.
  by rewrite modifiedRequest_twice.
Qed.

Lemma part000_modified_accept (req : Request) :
  includes (accept_of (Part000.modified req)) "text/event-stream" = true.
Proof.
  unfold Part000.modified, Part000.patched.
  destruct (includes (accept_of req) "text/event-stream") eqn:Hsse; simpl.
  - done.
  - unfold accept_of, with_headers. simpl. by rewrite lookup_insert_eq.
Qed.

Lemma part000_modified_twice (req : Request) :
  Part000.modified (Part000.modified req) = Part000.modified req.
Proof.
  pose proof (part000_modified_accept req) as Hsse.
  unfold Part000.modified at 1. unfold Part000.patched. by rewrite Hsse.
Qed.

(** X7.  What a wrapper forwards passes through the wrappers unchanged, so
    wrapping a handler twice is wrapping it once: for route.ts, for
    part_002, for part_000, and for part_002 around route.ts. *)
Theorem wrapper_idempotent (coreHandler : Request → result Response) (req : Request) :
  Route.handler (Route.handler coreHandler) req = Route.handler coreHandler req
  ∧ Part002.handler (Part002.handler coreHandler) req = Part002.handler coreHandler req
  ∧ Part002.handler (Route.handler coreHandler) req = Part002.handler coreHandler req
  ∧ Part000.handler (Part000.handler coreHandler) req = Part000.handler coreHandler req.
Proof.
  split; [|split; [|split]].
  - unfold Route.handler at 1 3.
    destruct (Route.handler_step req) as [log [r|r|e]] eqn:Hstep; simpl; [done| |done].
    assert (body req = None ∧ r = Route.modifiedRequest req) as [Hbody ->].
    { by apply (route_forward req r); rewrite Hstep. }
    unfold Route.handler.
    by rewrite route_step_modifiedRequest, route_delegate_twice.
  - unfold Part002.handler at 1 3.
    destruct (Part002.handler_step req) as [log [r|r|e]] eqn:Hstep; simpl; [done| |done].
    assert (body req = None ∧ r = Part002.modifiedRequest req) as [Hbody ->].
    { by apply (part002_forward req r); rewrite Hstep. }
    unfold Part002.handler.
    rewrite part002_step_bodiless by done. simpl.
    unfold Part002.modifiedRequest, with_headers. simpl.
    by rewrite insert_insert_eq.
  - unfold Part002.handler at 1 2.
    destruct (Part002.handler_step req) as [log [r|r|e]] eqn:Hstep; simpl; [done| |done].
    assert (body req = None ∧ r = Part002.modifiedRequest req) as [Hbody ->].
    { by apply (part002_forward req r); rewrite Hstep. }
    change (Part002.modifiedRequest req) with (Route.modifiedRequest req).
    unfold Route.handler.
    by rewrite route_step_modifiedRequest, route_delegate_twice.
  - unfold Part000.handler at 1 3.
    destruct (Part000.handler_step req) as [log [r|r|e]] eqn:Hstep; simpl; [done| |done].
    assert (body req = None ∧ r = Part000.modified req) as [Hbody ->].
    { by apply (part000_forward req r); rewrite Hstep. }
    assert (method req = "POST" → ∀ a, manual_answer req ≠ Ok (Some a)) as Hnone.
    { intros Hpost a Ha. rewrite part000_post in Hstep by done.
      by rewrite Ha in Hstep. }
    unfold Part000.handler, Part000.handler_step.
    change (method (Part000.modified req)) with (method req).
    rewrite (manual_answer_body (Part000.modified req) req) by done.
    assert (∀ bodyRead, Part000.delegate bodyRead (Part000.modified req)
                        = Forward (Part000.modified req)) as Hdelegate.
    { intros bodyRead. rewrite part000_delegate_bodiless by done.
      by rewrite part000_modified_twice. }
    rewrite !Hdelegate.
    destruct (String.eqb (method req) "POST") eqn:Hpost; [|done].
    apply String.eqb_eq in Hpost.
    destruct (manual_answer req) as [[a|]|e]; [|done..].
    by destruct (Hnone Hpost a).
Qed.

(** X8.  Whatever part_000 forwards has an accept header that names
    text/event-stream; when the request came without it, part_000 forwards
    exactly what route.ts would. *)
Theorem part000_forward_declares_event_stream (req r : Request) :
  (Part000.handler_step req).2 = Forward r →
  includes (accept_of r) "text/event-stream" = true
  ∧ (includes (accept_of req) "text/event-stream" = false →
     r = Route.modifiedRequest req).
Proof.
  intros Hstep. apply part000_forward in Hstep as [_ ->].
  split; [apply part000_modified_accept|].
  intros Hsse. unfold Part000.modified, Part000.patched. by rewrite Hsse.
Qed.

(** X9.  A request without a body that route.ts does not answer itself is
    handled exactly as part_002 handles it: the same request is forwarded
    and the same response comes back. *)
Theorem route_delegates_like_part002 (coreHandler : Request → result Response)
    (req : Request) :
  body req = None →
  (∀ r, (Route.handler_step req).2 ≠ Respond r) →
  (Route.handler_step req).2 = Forward (Route.modifiedRequest req)
  ∧ (Part002.handler_step req).2 = Forward (Route.modifiedRequest req)
  ∧ Route.handler coreHandler req = Part002.handler coreHandler req.
Proof.
  intros Hbody Hforward.
  assert ((Route.handler_step req).2 = Forward (Route.modifiedRequest req)) as Hroute.
  { destruct (route_step_delegate req) as [[a Ha] | ->].
    - by destruct (Hforward a).
    - by apply route_delegate_bodiless. }
  assert ((Part002.handler_step req).2 = Forward (Route.modifiedRequest req)) as Hvariant.
  { by rewrite part002_step_bodiless. }
  split; [done|]. split; [done|].
  unfold Route.handler, Part002.handler. by rewrite Hroute, Hvariant.
Qed.

(** X10.  The two manual paths give the same answers: what route.ts answers
    itself, part_000 answers too and with the same response; and what
    part_000 answers itself, route.ts answers as soon as the accept header
    sends the request down its fallback path. *)
Theorem manual_answers_agree (req : Request) (r : Response) :
  ((Route.handler_step req).2 = Respond r → (Part000.handler_step req).2 = Respond r)
  ∧ ((Part000.handler_step req).2 = Respond r →
     Route.fallback (accept_of req) = true →
     (Route.handler_step req).2 = Respond r).
Proof.
  split.
  - intros Hstep. apply route_respond in Hstep as ([_ Hpost] & Hanswer & _).
    rewrite part000_post by done. by rewrite Hanswer.
  - intros Hstep Hfallback. apply part000_respond in Hstep as [Hpost Hanswer].
    rewrite route_post by done. by rewrite Hanswer.
Qed.

(** X11.  A manual answer is made from the body alone: two POSTs with the
    same body get the same answer from part_000 whatever their urls and
    headers, and from route.ts when both go down the fallback path. *)
Theorem answer_depends_on_body_only (req req' : Request) (r : Response) :
  method req = "POST" → method req' = "POST" → body req = body req' →
  ((Part000.handler_step req).2 = Respond r → (Part000.handler_step req').2 = Respond r)
  ∧ (Route.fallback (accept_of req') = true →
     (Route.handler_step req).2 = Respond r → (Route.handler_step req').2 = Respond r).
Proof.
  intros Hpost Hpost' Hbody.
  pose proof (manual_answer_body req req' Hbody) as Hsame.
  split.
  - intros Hstep%part000_respond. destruct Hstep as [_ Hanswer].
    rewrite part000_post by done. by rewrite <- Hsame, Hanswer.
  - intros Hfallback Hstep%route_respond. destruct Hstep as (_ & Hanswer & _).
    rewrite route_post by done. by rewrite <- Hsame, Hanswer.
Qed.

End Wrappers.

(** ** What the manual path takes for a target, for ports and for probes *)

Section Arguments.
Context {number : Type} `{JsNumber number} `{JsonCodec number}.

Local Abbreviation json := (json number).

(** X12.  The [target is required] error is the answer to every target that
    JavaScript counts as false or as having length zero: besides an absent
    target and the empty array, also null, false, a zero, the empty string
    and an object whose [length] is zero. *)
Theorem falsy_target_required (req : Request) (data : json) (ms ps : list (string * json))
    (arguments : option (list (string * json))) :
  method req = "POST" → parsed req data → httpx_call data ms ps arguments →
  let target := own_property "target" (default [] arguments) in
  target = Some JNull ∨ target = Some (JBool false) ∨ target = Some (JStr "")
  ∨ (∃ n, target = Some (JNum n) ∧ number_is_zero n = true)
  ∨ (∃ members n, target = Some (JObj members)
                  ∧ own_property "length" members = Some (JNum n)
                  ∧ number_is_zero n = true) →
  let answer := target_required_response (own_property "id" ms) in
  status answer = 400
  ∧ (Route.fallback (accept_of req) = true →
     Route.handler_step req = ([], Respond answer))
  ∧ Part000.handler_step req
    = ([ConsoleLog "Incoming Accept header:" (accept_of req)], Respond answer).
Proof.
  intros Hpost Hparse Hcall target Htarget answer.
  assert (manual_answer req = Ok (Some answer)) as Hanswer.
  { rewrite (manual_answer_call req data ms ps arguments) by done.
    cbv zeta. fold target.
    destruct Htarget as [-> | [-> | [-> | [(n & -> & Hn) | (members & n & -> & Hlen & Hn)]]]];
      simpl; rewrite ?Hn, ?Hlen; simpl; rewrite ?Hn; done. }
  split; [done|]. split.
  - intros Hfallback. rewrite route_post by done. by rewrite Hanswer.
  - rewrite part000_post by done. by rewrite Hanswer.
Qed.

(** X13.  A target that is neither false, nor of length zero, nor an array
    (a domain given as a string, [true], a number, an object) gets no
    error answer: the call of [join] on it throws a TypeError, which the
    wrapper catches and prints.  No request is forwarded after that: the
    body has been read, and the delegation code throws a TypeError that
    nothing catches. *)
Theorem non_array_target_not_answered (req : Request) (data : json)
    (ms ps : list (string * json)) (arguments : option (list (string * json)))
    (v : json) (text : string) :
  method req = "POST" → body req = Some text → parsed req data →
  httpx_call data ms ps arguments →
  own_property "target" (default [] arguments) = Some v →
  truthy (Some v) = true → length_is_zero (length_of v) = false →
  (∀ items, v ≠ JArr items) →
  manual_answer req = Throw TypeError
  ∧ (Route.fallback (accept_of req) = true →
     Route.handler_step req
     = ([ConsoleError "Manual fallback error" TypeError], Throws TypeError))
  ∧ Part000.handler_step req
    = ([ConsoleLog "Incoming Accept header:" (accept_of req);
        ConsoleError "manual handler parse error" TypeError],
       Throws TypeError).
Proof.
  intros Hpost Hbody Hparse Hcall Htarget Htruthy Hlen Harray.
  assert (manual_answer req = Throw TypeError) as Hanswer.
  { rewrite (manual_answer_call req data ms ps arguments) by done.
    cbv zeta. rewrite Htarget.
    assert (or_else (Some v) (JArr []) = v) as ->.
    { unfold or_else. by rewrite Htruthy. }
    rewrite Htruthy, Hlen. simpl.
    unfold build_command.
    destruct v as [|b|n|s|items|members]; try done.
    by destruct (Harray items). }
  split; [done|]. split.
  - intros Hfallback. rewrite route_post by done. rewrite Hanswer.
    by apply (body_read_throws req text _ []).
  - rewrite part000_post by done. rewrite Hanswer.
    by apply (body_read_throws req text [] _).
Qed.

(** The manual builder on arrays of any values that print. *)
Lemma build_command_arrays (target : list json) (ports probes : option (list json))
    (hosts shown flags : list string) :
  sequence (map join_element target) = Ok hosts →
  sequence (map join_element (default [] ports)) = Ok shown →
  sequence (map to_string (default [] probes)) = Ok flags →
  build_command (JArr target) (JArr <$> ports) (JArr <$> probes)
  = Ok (spec_command hosts shown flags).
Proof.
  intros Hhosts Hshown Hflags. unfold build_command, array_join.
  rewrite Hhosts. simpl.
  rewrite (push_ports_shown _ _ shown) by done. simpl.
  rewrite (push_probes_shown _ _ flags) by done. simpl.
  f_equal. by apply (spec_command_args (join "," hosts)).
Qed.

(** X14.  The elements of [target] are not looked at: any array with at
    least one element, each of which prints, is taken, and the command
    joins what they print as; null prints as nothing and a string as
    itself, so [[null]] and the array of one empty string both give a
    command with an empty target. *)
Theorem target_elements_unchecked (req : Request) (data : json)
    (ms ps args : list (string * json)) (target : list json)
    (ports probes : option (list json)) (hosts shown flags : list string) :
  method req = "POST" → parsed req data → httpx_call data ms ps (Some args) →
  own_property "target" args = Some (JArr target) → target ≠ [] →
  sequence (map join_element target) = Ok hosts →
  own_property "ports" args = JArr <$> ports →
  sequence (map join_element (default [] ports)) = Ok shown →
  own_property "probes" args = JArr <$> probes →
  sequence (map to_string (default [] probes)) = Ok flags →
  let answer := command_response (own_property "id" ms) (spec_command hosts shown flags) in
  status answer = 200
  ∧ length hosts = length target
  ∧ (∀ i, target !! i = Some JNull → hosts !! i = Some "")
  ∧ (∀ i s, target !! i = Some (JStr s) → hosts !! i = Some s)
  ∧ (Route.fallback (accept_of req) = true →
     Route.handler_step req = ([], Respond answer))
  ∧ Part000.handler_step req
    = ([ConsoleLog "Incoming Accept header:" (accept_of req)], Respond answer).
Proof.
  intros Hpost Hparse Hcall Htarget Hne Hhosts Hports Hshown Hprobes Hflags answer.
  assert (manual_answer req = Ok (Some answer)) as Hanswer.
  { rewrite (manual_answer_call req data ms ps (Some args)) by done.
    cbv zeta. change (default [] (Some args)) with args.
    rewrite Htarget, Hports, Hprobes.
    change (or_else (Some (JArr target)) (JArr [])) with (@JArr number target).
    rewrite (build_command_arrays target ports probes hosts shown flags) by done.
    by destruct target. }
  split; [done|].
  split; [by rewrite (sequence_length _ _ Hhosts), length_map|].
  split.
  { intros i Hi.
    destruct (sequence_lookup join_element target hosts i JNull Hhosts Hi)
      as (y & Hy & [= <-]). done. }
  split.
  { intros i s Hi.
    destruct (sequence_lookup join_element target hosts i (JStr s) Hhosts Hi)
      as (y & Hy & [= <-]). done. }
  split.
  - intros Hfallback. rewrite route_post by done. by rewrite Hanswer.
  - rewrite part000_post by done. by rewrite Hanswer.
Qed.

(** X15.  [ports] and [probes] that are not lists but have no length (null,
    a boolean, a number, the empty string) or are the empty array are
    passed over like absent ones: the command has no [-p] and no probe
    flag, and nothing is reported. *)
Theorem values_without_length_ignored (req : Request) (data : json)
    (ms ps args : list (string * json)) (target : list string) (p q : json) :
  method req = "POST" → parsed req data → httpx_call data ms ps (Some args) →
  own_property "target" args = Some (json_strings target) → target ≠ [] →
  own_property "ports" args = Some p → without_length p →
  own_property "probes" args = Some q → without_length q →
  let answer := command_response (own_property "id" ms)
                  ("httpx -u " +:+ join "," target +:+ " -silent") in
  (Route.fallback (accept_of req) = true →
   Route.handler_step req = ([], Respond answer))
  ∧ Part000.handler_step req
    = ([ConsoleLog "Incoming Accept header:" (accept_of req)], Respond answer).
Proof.
  intros Hpost Hparse Hcall Htarget Hne Hports Hp Hprobes Hq answer.
  assert (manual_answer req = Ok (Some answer)) as Hanswer.
  { rewrite (manual_answer_call req data ms ps (Some args)) by done.
    cbv zeta. change (default [] (Some args)) with args.
    rewrite Htarget, Hports, Hprobes.
    change (or_else (Some (json_strings target)) (JArr []))
      with (@json_strings number target).
    assert (build_command (json_strings target) (Some p) (Some q)
            = Ok ("httpx -u " +:+ join "," target +:+ " -silent")) as ->.
    { assert (∀ cmd, push_ports cmd (Some p) = Ok cmd) as Hpush.
      { intros cmd. by destruct Hp as [-> | [[b ->] | [[n ->] | [-> | ->]]]]. }
      assert (∀ cmd, push_probes cmd (Some q) = Ok cmd) as Hpush'.
      { intros cmd. by destruct Hq as [-> | [[b ->] | [[n ->] | [-> | ->]]]]. }
      unfold build_command. rewrite array_join_strings.
      unfold mbind, result_bind. by rewrite Hpush, Hpush'. }
    by destruct target. }
  split.
  - intros Hfallback. rewrite route_post by done. by rewrite Hanswer.
  - rewrite part000_post by done. by rewrite Hanswer.
Qed.

End Arguments.

(** ** The manual path and the declared shape *)

Section Shape.
Context {number : Type} `{JsNumber number} `{JsonCodec number}.

Local Abbreviation json := (json number).

Lemma array_strings (v : json) (l : list string) :
  Schema.array Schema.string_of v = Some l → v = json_strings l.
Proof.
  destruct v as [|b|n|s|items|ms]; try done.
  unfold Schema.array, json_strings. intros Hitems. f_equal.
  revert l Hitems. induction items as [|x items IH]; intros l.
  - by intros [= <-].
  - simpl. destruct x as [|b|n|s|items'|ms]; try done. simpl.
    destruct (mapM Schema.string_of items) as [k|]; [|done]. simpl.
    intros [= <-]. simpl. by rewrite (IH k).
Qed.

Lemma array_numbers (v : json) (l : list number) :
  Schema.array Schema.number_of v = Some l → v = json_numbers l.
Proof.
  destruct v as [|b|n|s|items|ms]; try done.
  unfold Schema.array, json_numbers. intros Hitems. f_equal.
  revert l Hitems. induction items as [|x items IH]; intros l.
  - by intros [= <-].
  - simpl. destruct x as [|b|n|s|items'|ms]; try done. simpl.
    destruct (mapM Schema.number_of items) as [k|]; [|done]. simpl.
    intros [= <-]. simpl. by rewrite (IH k).
Qed.

(** X16.  Arguments that the declared shape takes are taken by the manual
    path too, and the command of the manual answer is the very string the
    tool callback builds from the validated values, in either spelling of
    the callback. *)
Theorem manual_agrees_with_core (req : Request) (data : json)
    (ms ps args : list (string * json)) (a : Schema.ToolArguments) :
  method req = "POST" → parsed req data → httpx_call data ms ps (Some args) →
  Schema.accepts args = Some a →
  let command := Core.command (Schema.target a) (Schema.ports a) (Schema.probes a) in
  let answer := command_response (own_property "id" ms) command in
  command = Core.command' (Schema.target a) (Schema.ports a) (Schema.probes a)
  ∧ (Route.fallback (accept_of req) = true →
     Route.handler_step req = ([], Respond answer))
  ∧ Part000.handler_step req
    = ([ConsoleLog "Incoming Accept header:" (accept_of req)], Respond answer).
Proof.
  intros Hpost Hparse Hcall Haccepts command answer.
  split; [unfold command; by rewrite core_command_spec, core_command'_spec|].
  assert (manual_answer req = Ok (Some answer)) as Hanswer.
  { unfold Schema.accepts in Haccepts.
    destruct (own_property "target" args) as [tv|] eqn:Htarget; [|done].
    simpl in Haccepts.
    destruct (Schema.array Schema.string_of tv) as [t|] eqn:Ht; [|done].
    simpl in Haccepts. apply array_strings in Ht as ->.
    destruct t as [|t0 t]; [done|]. simpl in Haccepts.
    destruct (Schema.optional _ (own_property "ports" args)) as [p|] eqn:Hp; [|done].
    destruct (Schema.optional _ (own_property "probes" args)) as [q|] eqn:Hq; [|done].
    simpl in Haccepts. injection Haccepts as <-.
    unfold answer, command. simpl. rewrite core_command_spec.
    apply (manual_answer_command req data ms ps args (t0 :: t)
             (map JNum <$> p) (map JStr <$> q)); try done.
    - unfold Schema.optional in Hp.
      destruct (own_property "ports" args) as [pv|]; [|by injection Hp as <-].
      destruct (Schema.array Schema.number_of pv) as [l|] eqn:Hl; [|done].
      injection Hp as <-. by apply array_numbers in Hl as ->.
    - destruct p as [l|]; [apply sequence_numbers | done].
    - unfold Schema.optional in Hq.
      destruct (own_property "probes" args) as [qv|]; [|by injection Hq as <-].
      destruct (Schema.array Schema.string_of qv) as [l|] eqn:Hl; [|done].
      injection Hq as <-. by apply array_strings in Hl as ->.
    - destruct q as [l|]; [apply to_string_strings | done]. }
  split.
  - intros Hfallback. rewrite route_post by done. by rewrite Hanswer.
  - rewrite part000_post by done. by rewrite Hanswer.
Qed.

(** X17.  [ports] given as a non-empty string, as in [80,443], is neither
    refused nor used: it has a length and no [join], the call throws a
    TypeError, which the wrapper catches and prints.  No request is
    forwarded after that: the body has been read, and the delegation code
    throws a TypeError that nothing catches. *)
Theorem string_ports_not_answered (req : Request) (data : json)
    (ms ps args : list (string * json)) (target : list string) (s text : string) :
  method req = "POST" → body req = Some text → parsed req data →
  httpx_call data ms ps (Some args) →
  own_property "target" args = Some (json_strings target) → target ≠ [] →
  own_property "ports" args = Some (JStr s) → s ≠ "" →
  manual_answer req = Throw TypeError
  ∧ (Route.fallback (accept_of req) = true →
     Route.handler_step req
     = ([ConsoleError "Manual fallback error" TypeError], Throws TypeError))
  ∧ Part000.handler_step req
    = ([ConsoleLog "Incoming Accept header:" (accept_of req);
        ConsoleError "manual handler parse error" TypeError],
       Throws TypeError).
Proof.
  intros Hpost Hbody Hparse Hcall Htarget Hne Hports Hs.
  assert (manual_answer req = Throw TypeError) as Hanswer.
  { rewrite (manual_answer_call req data ms ps (Some args)) by done.
    cbv zeta. change (default [] (Some args)) with args.
    rewrite Htarget, Hports.
    change (or_else (Some (json_strings target)) (JArr []))
      with (@json_strings number target).
    unfold build_command. rewrite array_join_strings.
    destruct target as [|t0 target]; [done|].
    by destruct s. }
  split; [done|]. split.
  - intros Hfallback. rewrite route_post by done. rewrite Hanswer.
    by apply (body_read_throws req text _ []).
  - rewrite part000_post by done. rewrite Hanswer.
    by apply (body_read_throws req text [] _).
Qed.

End Shape.

(** ** The accept header *)

Lemma prefix_app (sub post : string) : String.prefix sub (sub +:+ post) = true.
Proof.
  induction sub as [|a sub IH]; [by destruct post|].
  rewrite append_cons. simpl. by destruct (Ascii.ascii_dec a a).
Qed.

Lemma prefix_inv (sub s : string) :
  String.prefix sub s = true → ∃ post, s = sub +:+ post.
Proof.
  revert s. induction sub as [|a sub IH]; intros s.
  - intros _. by exists s.
  - destruct s as [|b s]; [done|]. simpl.
    destruct (Ascii.ascii_dec a b) as [->|]; [|done].
    intros [post ->]%IH. by exists post.
Qed.

Lemma includes_cons (a : Ascii.ascii) (s sub : string) :
  includes (String a s) sub = String.prefix sub (String a s) || includes s sub.
Proof. reflexivity. Qed.

Lemma includes_empty (sub : string) :
  includes "" sub = String.prefix sub "".
Proof. simpl. by rewrite orb_false_r. Qed.

(** [includes] finds [sub] exactly in the strings that contain it. *)
Lemma includes_spec (s sub : string) :
  includes s sub = true ↔ ∃ pre post, s = pre +:+ sub +:+ post.
Proof.
  split.
  - induction s as [|a s IH].
    + rewrite includes_empty. intros [post ->]%prefix_inv. by exists "", post.
    + rewrite includes_cons. intros [Hprefix | Hrest]%orb_true_iff.
      * apply prefix_inv in Hprefix as [post ->]. by exists "", post.
      * destruct (IH Hrest) as (pre & post & ->). by exists (String a pre), post.
  - intros (pre & post & ->).
    induction pre as [|a pre IH].
    + change ("" +:+ sub +:+ post) with (sub +:+ post).
      destruct (sub +:+ post) as [|b rest] eqn:Heq.
      * rewrite includes_empty, <- Heq. apply prefix_app.
      * rewrite includes_cons, <- Heq, prefix_app. done.
    + rewrite append_cons, includes_cons, IH. by rewrite orb_true_r.
Qed.

Section Accept.
Context {number : Type} `{JsNumber number} `{JsonCodec number}.

(** X18.  route.ts delegates without looking at the body exactly when the
    accept header contains the text application/json and the text
    text/event-stream, each somewhere and in any order, with whatever
    stands around them; the match is on the characters as they are. *)
Theorem fallback_characterised (req : Request) :
  Route.fallback (accept_of req) = false
  ↔ (∃ pre post, accept_of req = pre +:+ "application/json" +:+ post)
    ∧ (∃ pre post, accept_of req = pre +:+ "text/event-stream" +:+ post).
Proof.
  unfold Route.fallback.
  rewrite <- !includes_spec.
  destruct (includes _ "application/json"), (includes _ "text/event-stream");
    simpl; intuition congruence.
Qed.

(** X19.  For the same arguments the text of a manual answer is never the
    text the tool callback returns, in route.ts or in part_001: a client
    sees from the text which path answered. *)
Theorem manual_text_differs (target : list string) (ports : option (list number))
    (probes : option (list string)) :
  (∀ id command,
     carries (command_response id command)
       (object [("jsonrpc", Some (JStr "2.0")); ("id", id);
                ("result", Some (JObj [("content", JArr
                   [JObj [("type", JStr "text");
                          ("text", JStr (manual_text command))]])]))]))
  ∧ manual_text (Core.command target ports probes) ≠ Core.tool_text target ports probes
  ∧ manual_text (Core.command' target ports probes)
    ≠ Part001.tool_text target ports probes
  ∧ Core.tool_text target ports probes ≠ Part001.tool_text target ports probes.
Proof.
  split; [done|].
  unfold manual_text, Core.tool_text, Part001.tool_text.
  split; [|split].
  - intros Heq. do 2 apply String.app_inj in Heq.
    unfold Core.command in Heq. vm_compute in Heq. discriminate Heq.
  - intros Heq. vm_compute in Heq. discriminate Heq.
  - intros Heq. vm_compute in Heq. discriminate Heq.
Qed.

(** X20.  In the tool callback an empty list of ports or of probes adds no
    flag, just as an absent one, and the two spellings of the conditions
    ([ports?.length] and [ports && ports.length > 0]) build the same
    command. *)
Theorem core_spellings_agree (target : list string) (ports : option (list number))
    (probes : option (list string)) :
  Core.command target ports probes = Core.command' target ports probes
  ∧ Core.command target (Some []) probes = Core.command target None probes
  ∧ Core.command target ports (Some []) = Core.command target ports None
  ∧ Core.command target None None = "httpx -u " +:+ join "," target +:+ " -silent".
Proof.
  split; [by rewrite core_command_spec, core_command'_spec|].
  repeat split; by rewrite !core_command_spec.
Qed.

End Accept.

(** ** The further properties on concrete requests *)

Section MoreExamples.
Import Demo.

#[local] Existing Instance Samples.codec | 0.

Lemma non_post_witness :
  Route.handler_step Samples.get_request
  = ([], Forward (Route.modifiedRequest Samples.get_request)).
Proof.
  destruct (non_post_never_answered Samples.get_request) as [Hbodiless _].
  - discriminate.
  - apply Hbodiless. reflexivity.
Defined.

Lemma unknown_method_witness :
  Route.handler_step (Samples.post (rpc (JNum 1) "ping")) = ([], Throws TypeError).
Proof.
  destruct (unknown_method_not_answered (Samples.post (rpc (JNum 1) "ping"))
              (rpc (JNum 1) "ping") (stringify (rpc (JNum 1) "ping")))
    as (_ & Hroute & _).
  - reflexivity.
  - reflexivity.
  - vm_compute. reflexivity.
  - discriminate.
  - intros s [= <-]. repeat split; discriminate.
  - exact Hroute.
Defined.

Lemma other_tool_witness :
  Route.handler_step (Samples.post Samples.other_tool) = ([], Throws TypeError).
Proof.
  destruct (other_tool_not_answered (Samples.post Samples.other_tool) Samples.other_tool
              (rpc_members (JNum 10) "tools/call" ++
               [("params", JObj [("name", JStr "nmap"); ("arguments", JObj scan)])])
              (stringify Samples.other_tool))
    as (_ & Hroute & _).
  - reflexivity.
  - reflexivity.
  - vm_compute. reflexivity.
  - split; reflexivity.
  - vm_compute. discriminate.
  - exact Hroute.
Defined.

Lemma null_body_witness :
  Route.handler_step (Samples.post JNull)
  = ([ConsoleError "Manual fallback error" TypeError], Throws TypeError).
Proof.
  destruct (null_body_not_answered (Samples.post JNull) (stringify JNull))
    as (_ & Hroute & _).
  - reflexivity.
  - reflexivity.
  - vm_compute. reflexivity.
  - apply Hroute. reflexivity.
Defined.

Lemma manual_answer_shapes_witness :
  method initialize_request = "POST"
  ∧ response_headers (initialize_response (Some (JNum 7)))
    = [("content-type", "application/json")].
Proof.
  destruct (manual_answer_shapes initialize_request (initialize_response (Some (JNum 7))))
    as (Hpost & Hheaders & _).
  - left. vm_compute. reflexivity.
  - split; [exact Hpost | exact Hheaders].
Defined.

Lemma part000_forward_witness :
  includes (accept_of (Part000.modified Samples.get_request)) "text/event-stream" = true.
Proof.
  destruct (part000_forward_declares_event_stream Samples.get_request
              (Part000.modified Samples.get_request)) as [Hsse _].
  - vm_compute. reflexivity.
  - exact Hsse.
Defined.

Lemma route_delegates_witness :
  Route.handler Samples.echo Samples.get_request
  = Part002.handler Samples.echo Samples.get_request.
Proof.
  destruct (route_delegates_like_part002 Samples.echo Samples.get_request)
    as (_ & _ & Hsame).
  - reflexivity.
  - intros r. vm_compute. discriminate.
  - exact Hsame.
Defined.

Lemma manual_answers_agree_witness :
  (Part000.handler_step initialize_request).2
  = Respond (initialize_response (Some (JNum 7))).
Proof.
  destruct (manual_answers_agree initialize_request (initialize_response (Some (JNum 7))))
    as [Hvariant _].
  apply Hvariant. vm_compute. reflexivity.
Defined.

Lemma answer_depends_on_body_witness :
  (Part000.handler_step (Demo.post None (call (JNum 4) scan))).2
  = Respond (command_response (Some (JNum 4))
      "httpx -u example.com,b.org -silent -p 80,443 -title -status-code").
Proof.
  destruct (answer_depends_on_body_only (Samples.post (call (JNum 4) scan))
              (Demo.post None (call (JNum 4) scan))
              (command_response (Some (JNum 4))
                 "httpx -u example.com,b.org -silent -p 80,443 -title -status-code"))
    as [Hvariant _].
  - reflexivity.
  - reflexivity.
  - reflexivity.
  - apply Hvariant. vm_compute. reflexivity.
Defined.

Lemma falsy_target_witness :
  Route.handler_step (Samples.post (call (JNum 11) Samples.null_target))
  = ([], Respond (target_required_response (Some (JNum 11)))).
Proof.
  destruct (falsy_target_required (Samples.post (call (JNum 11) Samples.null_target))
              (call (JNum 11) Samples.null_target)
              (call_members (JNum 11) Samples.null_target)
              (params_members Samples.null_target) (Some Samples.null_target))
    as (_ & Hroute & _).
  - reflexivity.
  - vm_compute. reflexivity.
  - repeat split; reflexivity.
  - left. reflexivity.
  - apply Hroute. reflexivity.
Defined.

Lemma non_array_target_witness :
  Route.handler_step (Samples.post (call (JNum 12) Samples.string_target))
  = ([ConsoleError "Manual fallback error" TypeError], Throws TypeError).
Proof.
  destruct (non_array_target_not_answered
              (Samples.post (call (JNum 12) Samples.string_target))
              (call (JNum 12) Samples.string_target)
              (call_members (JNum 12) Samples.string_target)
              (params_members Samples.string_target) (Some Samples.string_target)
              (JStr "example.com")
              (stringify (call (JNum 12) Samples.string_target)))
    as (_ & Hroute & _).
  - reflexivity.
  - reflexivity.
  - vm_compute. reflexivity.
  - repeat split; reflexivity.
  - reflexivity.
  - reflexivity.
  - reflexivity.
  - discriminate.
  - apply Hroute. reflexivity.
Defined.

Lemma target_elements_witness :
  Route.handler_step (Samples.post (call (JNum 13) Samples.mixed_target))
  = ([], Respond (command_response (Some (JNum 13)) "httpx -u ,a,5 -silent")).
Proof.
  destruct (target_elements_unchecked
              (Samples.post (call (JNum 13) Samples.mixed_target))
              (call (JNum 13) Samples.mixed_target)
              (call_members (JNum 13) Samples.mixed_target)
              (params_members Samples.mixed_target) Samples.mixed_target
              [JNull; JStr "a"; JNum 5] None None [""; "a"; "5"] [] [])
    as (_ & _ & _ & _ & Hroute & _).
  - reflexivity.
  - vm_compute. reflexivity.
  - repeat split; reflexivity.
  - reflexivity.
  - discriminate.
  - reflexivity.
  - reflexivity.
  - reflexivity.
  - reflexivity.
  - reflexivity.
  - apply Hroute. reflexivity.
Defined.

Lemma values_without_length_witness :
  Route.handler_step (Samples.post (call (JNum 14) Samples.scalar_ports))
  = ([], Respond (command_response (Some (JNum 14)) "httpx -u a -silent")).
Proof.
  destruct (values_without_length_ignored
              (Samples.post (call (JNum 14) Samples.scalar_ports))
              (call (JNum 14) Samples.scalar_ports)
              (call_members (JNum 14) Samples.scalar_ports)
              (params_members Samples.scalar_ports) Samples.scalar_ports
              ["a"] (JNum 80) (JBool true))
    as [Hroute _].
  - reflexivity.
  - vm_compute. reflexivity.
  - repeat split; reflexivity.
  - reflexivity.
  - discriminate.
  - reflexivity.
  - right. right. left. exists 80. reflexivity.
  - reflexivity.
  - right. left. exists true. reflexivity.
  - apply Hroute. reflexivity.
Defined.

Lemma manual_agrees_witness :
  Route.handler_step (Samples.post (call (JNum 4) scan))
  = ([], Respond (command_response (Some (JNum 4))
       (Core.command ["example.com"; "b.org"] (Some [80; 443])
          (Some ["title"; "status-code"])))).
Proof.
  destruct (manual_agrees_with_core (Samples.post (call (JNum 4) scan))
              (call (JNum 4) scan) (call_members (JNum 4) scan)
              (params_members scan) scan
              {| Schema.target := ["example.com"; "b.org"];
                 Schema.ports := Some [80; 443];
                 Schema.probes := Some ["title"; "status-code"] |})
    as (_ & Hroute & _).
  - reflexivity.
  - vm_compute. reflexivity.
  - repeat split; reflexivity.
  - reflexivity.
  - apply Hroute. reflexivity.
Defined.

Lemma string_ports_witness :
  Route.handler_step (Samples.post (call (JNum 15) Samples.string_ports))
  = ([ConsoleError "Manual fallback error" TypeError], Throws TypeError).
Proof.
  destruct (string_ports_not_answered
              (Samples.post (call (JNum 15) Samples.string_ports))
              (call (JNum 15) Samples.string_ports)
              (call_members (JNum 15) Samples.string_ports)
              (params_members Samples.string_ports) Samples.string_ports
              ["a"] "80,443"
              (stringify (call (JNum 15) Samples.string_ports)))
    as (_ & Hroute & _).
  - reflexivity.
  - reflexivity.
  - vm_compute. reflexivity.
  - repeat split; reflexivity.
  - reflexivity.
  - discriminate.
  - reflexivity.
  - discriminate.
  - apply Hroute. reflexivity.
Defined.

End MoreExamples.
